(** * Image Analyzer: a shallow embedding of [app.py]

    The program is a Streamlit script.  Every user interaction re-executes
    [main] from the top; the only data that survives from one execution to
    the next is [st.session_state].  The model follows that shape:

    - the external collaborators (Pillow, the Groq client) are an
      environment [Env] of answers, one environment per script execution;
    - what the widgets return during one execution is a [Widgets] record;
    - everything the program does to the outside world (log lines, the
      image handed to the JPEG writer, the request sent to the API, the
      elements rendered on the page) is appended to one trace of [event]s,
      so that the order between effects of different kinds is kept;
    - Python exceptions are a [result] with a [Raise] case, and
      [except Exception] is [try_except]. *)

From Stdlib Require Import String Ascii List ZArith NArith Bool Lia.
From Stdlib.Strings Require Import Byte.
Import ListNotations.

Local Open Scope string_scope.
Local Open Scope list_scope.

Infix "+++" := String.append (at level 60, right associativity).

(** ** Data *)

(** A decoded bitmap as Pillow holds it: the mode string ('RGB', 'RGBA',
    'L', 'LA', ...), the size, and one list of band values per pixel. *)
Record Image := {
  mode : string;
  size : nat * nat;
  pixels : list (list N)
}.

(** The file object returned by [st.file_uploader]. *)
Record UploadedFile := {
  file_name : string;
  file_bytes : list byte
}.

(** One part of the [content] list of a chat message. *)
Inductive ContentPart :=
| TextPart (text : string)
| ImageUrlPart (url : string).

Record ChatMessage := {
  role : string;
  msg_content : list ContentPart
}.

(** The keyword arguments of [client.chat.completions.create]. *)
Record Request := {
  model : string;
  messages : list ChatMessage;
  temperature : Z;
  max_tokens : Z;
  top_p : Z;
  stream : bool;
  stop : option (list string)
}.

(** The part of the completion object the program reads:
    [completion.choices[0].message.content]. *)
Record Message := { content : option string }.
Record Choice := { message : Message }.
Record ChatCompletion := { choices : list Choice }.

(** [st.session_state]: [None] when the key 'user_name' is not in the
    session state yet, [Some None] when it holds Python's [None], and
    [Some (Some n)] when it holds the name [n]. *)
Record SessionState := { user_name : option (option string) }.

(** Elements rendered on the page, in the order the script emits them. *)
Inductive UiElement :=
| StMarkdown (html : string)
| StTitle (s : string)
| StSubheader (s : string)
| StTextInput (label : string)
| StButton (label : string)
| StSidebarButton (label : string)
| StFileUploader (label : string)
| StImage (img : Image) (caption : string)
| StSpinner (s : string)
| StWarning (s : string)
| StSuccess (s : string)
| StWrite (s : string)
| StError (s : string)
| StInfo (s : string)
| StException (s : string).

(** Everything observable that the program does. *)
Inductive event :=
| LogInfo (msg : string)          (* logger.info *)
| LogError (msg : string)         (* logger.error *)
| ImageSave (img : Image)         (* image.save(buffered, format="JPEG") *)
| ApiRequest (req : Request)      (* client.chat.completions.create(...) *)
| Ui (e : UiElement).             (* st.<element>(...) *)

(** ** External collaborators *)

(** What a library call does: it returns, or it raises an instance of a
    subclass of [Exception] whose [str] is [msg] (Pillow raises [OSError],
    [ValueError] and [KeyError]; the Groq client raises [groq.APIError]
    and its subclasses). *)
Inductive outcome (A : Type) :=
| Returns (a : A)
| Fails (msg : string).
Arguments Returns {A} a.
Arguments Fails {A} msg.

Record Env := {
  (* Image.open(uploaded_file), with the pixel data decoded *)
  Image_open : UploadedFile -> outcome Image;
  (* image.load(), the first step of image.convert: the pixel data of a
     lazily opened file is read, which raises when the data is truncated *)
  Image_load : Image -> outcome unit;
  (* image.save(buffered, format="JPEG"); buffered.getvalue() *)
  Image_save_JPEG : Image -> outcome (list byte);
  (* client.chat.completions.create(model=..., messages=..., ...) *)
  chat_completions_create : Request -> outcome ChatCompletion
}.

(** What the widgets return during one execution of the script. *)
Record Widgets := {
  name_field : string;                   (* st.text_input("Please enter your name:") *)
  enter_button : bool;                   (* st.button("Enter") *)
  text_field : string;                   (* st.text_input("Enter text") *)
  file_uploader : option UploadedFile;   (* st.file_uploader("Choose an image...") *)
  analyze_button : bool;                 (* st.button("Analyze") *)
  logout_button : bool                   (* st.sidebar.button("Logout") *)
}.

(** ** Exceptions, state and trace *)

(** [RerunException] is what [st.rerun()] raises; Streamlit derives it from
    [BaseException], so [except Exception] does not catch it. *)
Inductive exn :=
| Exception (msg : string)
| RerunException.

Inductive result (A : Type) :=
| Ok (a : A)
| Raise (e : exn).
Arguments Ok {A} a.
Arguments Raise {A} e.

Definition M (A : Type) : Type :=
  SessionState -> result A * SessionState * list event.

Definition ret {A} (a : A) : M A := fun s => (Ok a, s, []).

Definition bind {A B} (m : M A) (f : A -> M B) : M B :=
  fun s =>
    match m s with
    | (Ok a, s1, ev1) =>
        match f a s1 with
        | (r, s2, ev2) => (r, s2, ev1 ++ ev2)
        end
    | (Raise e, s1, ev1) => (Raise e, s1, ev1)
    end.

Notation "x <- c1 ;; c2" := (bind c1 (fun x => c2))
  (at level 61, c1 at next level, right associativity).
Notation "c1 ;; c2" := (bind c1 (fun _ => c2))
  (at level 61, right associativity).

Definition raise {A} (e : exn) : M A := fun s => (Raise e, s, []).

Definition emit (ev : event) : M unit := fun s => (Ok tt, s, [ev]).

Definition get_session : M SessionState := fun s => (Ok s, s, []).

Definition put_session (s' : SessionState) : M unit := fun _ => (Ok tt, s', []).

(** The result of a library call, as a value or as a raised exception. *)
Definition lift {A} (o : outcome A) : M A :=
  match o with
  | Returns a => ret a
  | Fails msg => raise (Exception msg)
  end.

(** [try: body  except Exception as e: handler(str(e))]. *)
Definition try_except {A} (body : M A) (handler : string -> M A) : M A :=
  fun s =>
    match body s with
    | (Raise (Exception msg), s1, ev1) =>
        match handler msg s1 with
        | (r, s2, ev2) => (r, s2, ev1 ++ ev2)
        end
    | other => other
    end.

(** Projections of a run. *)
Definition outcome_of {A} (r : result A * SessionState * list event) : result A :=
  fst (fst r).
Definition session_of {A} (r : result A * SessionState * list event) : SessionState :=
  snd (fst r).
Definition trace_of {A} (r : result A * SessionState * list event) : list event :=
  snd r.

(** ** Logging *)

Definition status_str (status : bool) : string :=
  if status then "success" else "failed".

(** The line [log_activity] writes. *)
Definition activity_line (user activity : string) (status : bool) : string :=
  "User '" +++ user +++ "' - " +++ activity +++ ": " +++ status_str status.

Definition log_activity (user activity : string) (status : bool) : M unit :=
  emit (LogInfo (activity_line user activity status)).

(** The activity log of a trace: the lines written at level INFO, all of
    which come from [log_activity]. *)
Fixpoint activity_log (t : list event) : list string :=
  match t with
  | [] => []
  | LogInfo msg :: t' => msg :: activity_log t'
  | _ :: t' => activity_log t'
  end.

(** The requests sent to the inference API in a trace. *)
Fixpoint api_requests (t : list event) : list Request :=
  match t with
  | [] => []
  | ApiRequest req :: t' => req :: api_requests t'
  | _ :: t' => api_requests t'
  end.

(** The images handed to the JPEG writer in a trace. *)
Fixpoint saved_images (t : list event) : list Image :=
  match t with
  | [] => []
  | ImageSave img :: t' => img :: saved_images t'
  | _ :: t' => saved_images t'
  end.

(** The page rendered by a trace. *)
Fixpoint page (t : list event) : list UiElement :=
  match t with
  | [] => []
  | Ui e :: t' => e :: page t'
  | _ :: t' => page t'
  end.

(** ** Base64 ([base64.b64encode(...).decode()]) *)

Definition b64_alphabet : list ascii :=
  list_ascii_of_string
    "ABCDEFGHIJKLMNOPQRSTUVWXYZabcdefghijklmnopqrstuvwxyz0123456789+/".

Definition b64_char (n : N) : ascii :=
  nth (N.to_nat n) b64_alphabet "="%char.

Fixpoint b64encode (bs : list byte) : string :=
  match bs with
  | [] => ""
  | [a] =>
      let x := Byte.to_N a in
      String (b64_char (x / 4))
        (String (b64_char ((x mod 4) * 16)) "==")
  | [a; b] =>
      let x := Byte.to_N a in
      let y := Byte.to_N b in
      String (b64_char (x / 4))
        (String (b64_char ((x mod 4) * 16 + y / 16))
           (String (b64_char ((y mod 16) * 4)) "="))
  | a :: b :: c :: rest =>
      let x := Byte.to_N a in
      let y := Byte.to_N b in
      let z := Byte.to_N c in
      String (b64_char (x / 4))
        (String (b64_char ((x mod 4) * 16 + y / 16))
           (String (b64_char ((y mod 16) * 4 + z / 64))
              (String (b64_char (z mod 64)) (b64encode rest))))
  end.

(** ** Pillow *)

(** [image.convert('RGB')] on an 'RGBA' image: Pillow keeps the size and the
    first three bands of every pixel and drops the alpha band. *)
Definition convert_RGB (image : Image) : Image :=
  {| mode := "RGB";
     size := size image;
     pixels := map (firstn 3) (pixels image) |}.

(** [image.convert('RGB')]: Pillow loads the pixel data, which can raise,
    and then builds the converted bitmap. *)
Definition image_convert_RGB (env : Env) (image : Image) : M Image :=
  lift (Image_load env image) ;;
  ret (convert_RGB image).

(** ** The encoder *)

Definition encode_image_to_base64 (env : Env) (image : Image) : M (option string) :=
  image <- (if mode image =? "RGBA" then image_convert_RGB env image else ret image) ;;
  try_except
    (emit (ImageSave image) ;;
     buffered <- lift (Image_save_JPEG env image) ;;
     let img_str := b64encode buffered in
     ret (Some ("data:image/jpeg;base64," +++ img_str)))
    (fun e =>
       emit (LogError ("Error encoding image for user: " +++ e)) ;;
       ret None).

(** ** The analyzer *)

(** [completion.choices[0].message.content]; indexing an empty list raises
    [IndexError]. *)
Definition first_choice_content (completion : ChatCompletion) : M (option string) :=
  match choices completion with
  | [] => raise (Exception "list index out of range")
  | c :: _ => ret (content (message c))
  end.

Definition analyze_image_and_text (env : Env) (user_name user_text : string)
    (image : Image) : M (option string) :=
  try_except
    (image_base64 <- encode_image_to_base64 env image ;;
     match image_base64 with
     | None => raise (Exception "Failed to encode image")
     | Some url =>
         log_activity user_name "API call" true ;;
         let request :=
           {| model := "llama-3.2-11b-vision-preview";
              messages :=
                [ {| role := "user";
                     msg_content := [ TextPart user_text; ImageUrlPart url ] |} ];
              temperature := 1;
              max_tokens := 1024;
              top_p := 1;
              stream := false;
              stop := None |} in
         emit (ApiRequest request) ;;
         completion <- lift (chat_completions_create env request) ;;
         response_content <- first_choice_content completion ;;
         log_activity user_name "Image analysis" true ;;
         ret response_content
     end)
    (fun _ =>
       log_activity user_name "Image analysis" false ;;
       ret None).

(** ** Streamlit *)

(** Python's truth value of a [str] and of an [Optional[str]]. *)
Definition truthy (s : string) : bool := negb (s =? "").

Definition truthy_opt (r : option string) : bool :=
  match r with
  | Some s => truthy s
  | None => false
  end.

(** What an f-string prints for a value that is a [str] or [None]. *)
Definition py_str (v : option string) : string :=
  match v with
  | Some s => s
  | None => "None"
  end.

Definition st (e : UiElement) : M unit := emit (Ui e).

Definition st_text_input (label value : string) : M string :=
  st (StTextInput label) ;; ret value.

Definition st_button (label : string) (clicked : bool) : M bool :=
  st (StButton label) ;; ret clicked.

Definition st_sidebar_button (label : string) (clicked : bool) : M bool :=
  st (StSidebarButton label) ;; ret clicked.

Definition st_file_uploader (label : string) (value : option UploadedFile)
  : M (option UploadedFile) :=
  st (StFileUploader label) ;; ret value.

Definition st_rerun : M unit := raise RerunException.

(** [st.session_state.user_name]; reading a key that is not in the session
    state raises [AttributeError]. *)
Definition session_user_name : M (option string) :=
  s <- get_session ;;
  match user_name s with
  | None => raise (Exception "st.session_state has no attribute user_name")
  | Some v => ret v
  end.

Definition set_session_user_name (v : option string) : M unit :=
  put_session {| user_name := Some v |}.

Definition hide_streamlit_style : string := "
    <style>
    #MainMenu {visibility: hidden;}
    footer {visibility: hidden;}
    header {visibility: hidden;}
    
    .footer {
        text-align: center;
        padding: 20px 0;
        font-size: 14px;
        color: #666;
        border-top: 1px solid #eee;
        margin-top: 40px;
    }
    </style>
    ".

Definition footer : string := "
    <div class='footer'>
    Developed by <a href='https://aicraftalchemy.github.io'>Ai Craft Alchemy</a><br>
    Connect with us: <a href='tel:+917661081043'>+91 7661081043</a>
    </div>
    ".

Definition analysis_error_banner : string :=
  "Sorry, there was an error analyzing the image. Please try again later or try another image.".

(** ** The script *)

Definition main (env : Env) (w : Widgets) : M unit :=
  st (StMarkdown hide_streamlit_style) ;;
  (* Session state to track if user has entered name *)
  s <- get_session ;;
  (match user_name s with
   | None => set_session_user_name None
   | Some _ => ret tt
   end) ;;
  current <- session_user_name ;;
  match current with
  | None =>
      (* Welcome screen *)
      st (StTitle "Welcome to Image Analyzer! 👋") ;;
      user_name <- st_text_input "Please enter your name:" (name_field w) ;;
      clicked <- st_button "Enter" (enter_button w) ;;
      (if clicked then
         if truthy user_name then
           set_session_user_name (Some user_name) ;;
           log_activity user_name "Login" true ;;
           st_rerun
         else
           st (StWarning "Please enter your name to continue.") ;;
           log_activity "anonymous" "Login" false
       else ret tt) ;;
      ret tt
  | Some _ =>
      (* Main application interface *)
      u <- session_user_name ;;
      st (StTitle ("Hello, " +++ py_str u +++ "! 🎉")) ;;
      st (StSubheader "Image Analyzer") ;;
      user_text <- st_text_input "Enter text" (text_field w) ;;
      uploaded_file <- st_file_uploader "Choose an image..." (file_uploader w) ;;
      (* Use default text if user doesn't provide any *)
      let user_text := if negb (truthy user_text) then "Describe the image" else user_text in
      (match uploaded_file with
       | Some f =>
           try_except
             (image <- lift (Image_open env f) ;;
              st (StImage image "Uploaded Image") ;;
              u <- session_user_name ;;
              log_activity (py_str u) "Image upload" true ;;
              clicked <- st_button "Analyze" (analyze_button w) ;;
              if clicked then
                st (StSpinner "Analyzing the image...") ;;
                u <- session_user_name ;;
                response <- analyze_image_and_text env (py_str u) user_text image ;;
                if truthy_opt response then
                  st (StSuccess "Analysis complete!") ;;
                  st (StWrite (py_str response))
                else
                  st (StError analysis_error_banner)
              else ret tt)
             (fun _ =>
                st (StError "Error processing image. Please try another image.") ;;
                u <- session_user_name ;;
                log_activity (py_str u) "Image processing" false)
       | None => st (StInfo "Please upload an image to analyze.")
       end) ;;
      (* Logout option *)
      clicked <- st_sidebar_button "Logout" (logout_button w) ;;
      (if clicked then
         u <- session_user_name ;;
         log_activity (py_str u) "Logout" true ;;
         set_session_user_name None ;;
         st_rerun
       else ret tt) ;;
      st (StMarkdown footer)
  end.

(** ** Sessions *)

(** One execution of the script by Streamlit's script runner.  A
    [RerunException] ends the execution quietly (the next execution is the
    rerun); any other exception that reaches the runner is rendered on the
    page, and the session goes on. *)
Definition script_run (env : Env) (w : Widgets) (s : SessionState)
  : SessionState * list event :=
  match main env w s with
  | (Raise (Exception msg), s', t) => (s', t ++ [Ui (StException msg)])
  | (_, s', t) => (s', t)
  end.

(** A session: the script executions in order, each with the answers of
    the outside world and the widget values of that execution. *)
Fixpoint run_session (runs : list (Env * Widgets)) (s : SessionState)
  : SessionState * list event :=
  match runs with
  | [] => (s, [])
  | (env, w) :: rest =>
      match script_run env w s with
      | (s1, t1) =>
          match run_session rest s1 with
          | (s2, t2) => (s2, t1 ++ t2)
          end
      end
  end.

(** A browser session starts with an empty session state. *)
Definition fresh_session : SessionState := {| user_name := None |}.

(** The session states a sequence of script executions can lead to. *)
Inductive reachable : SessionState -> Prop :=
| reachable_fresh : reachable fresh_session
| reachable_step env w s :
    reachable s -> reachable (fst (script_run env w s)).

(** ** Sample data

    A Pillow-like environment and a few bitmaps, used to run the model on
    concrete inputs. *)

(** The modes Pillow's JPEG writer accepts (the keys of [RAWMODE] in
    [JpegImagePlugin]); for any other mode [save] raises
    [OSError: cannot write mode <mode> as JPEG]. *)
Definition jpeg_writable (m : string) : bool :=
  existsb (String.eqb m) ["1"; "L"; "RGB"; "RGBX"; "CMYK"; "YCbCr"].


(** Bytes standing for the output of the JPEG writer: the start-of-image
    marker, one byte per band value, the end-of-image marker. *)
Definition toy_jpeg (image : Image) : list byte :=
  [xff; xd8]
    ++ flat_map (map (fun v => match Byte.of_N v with Some b => b | None => x00 end))
         (pixels image)
    ++ [xff; xd9].

Definition pillow_save (image : Image) : outcome (list byte) :=
  if jpeg_writable (mode image) then Returns (toy_jpeg image)
  else Fails ("cannot write mode " +++ mode image +++ " as JPEG").

Definition rgb_pixel : Image :=
  {| mode := "RGB"; size := (1, 1)%nat; pixels := [[200; 30; 30]%N] |}.


(** A greyscale bitmap with an alpha band, as Pillow opens a PNG of colour
    type 4. *)
Definition la_pixel : Image :=
  {| mode := "LA"; size := (1, 1)%nat; pixels := [[90; 128]%N] |}.

Definition apple_completion : ChatCompletion :=
  {| choices := [ {| message := {| content := Some "A red apple on a table." |} |} ] |}.

(** An environment in which every upload opens as [image] and the API
    answers every request with [answer]. *)
Definition sample_env (image : Image) (answer : outcome ChatCompletion) : Env :=
  {| Image_open := fun _ => Returns image;
     Image_load := fun _ => Returns tt;
     Image_save_JPEG := pillow_save;
     chat_completions_create := fun _ => answer |}.

Definition apple_jpg : UploadedFile :=
  {| file_name := "apple.jpg"; file_bytes := [xff; xd8; xff; xd9] |}.


(** The widget values of an execution that shows the welcome screen, and
    of one that shows the main interface. *)
Definition welcome_widgets (name : string) (enter : bool) : Widgets :=
  {| name_field := name; enter_button := enter;
     text_field := ""; file_uploader := None;
     analyze_button := false; logout_button := false |}.

Definition analyzer_widgets (text : string) (file : option UploadedFile)
    (analyze : bool) : Widgets :=
  {| name_field := ""; enter_button := false;
     text_field := text; file_uploader := file;
     analyze_button := analyze; logout_button := false |}.

(** Bob's visit: the page loads, Bob types his name and presses Enter, the
    script reruns into the main interface, Bob uploads a JPEG (which
    executes the script again), and presses Analyze with the prompt left
    empty. *)
Definition bob_visit (env : Env) : list (Env * Widgets) :=
  [ (env, welcome_widgets "" false);
    (env, welcome_widgets "Bob" true);
    (env, analyzer_widgets "" None false);
    (env, analyzer_widgets "" (Some apple_jpg) false);
    (env, analyzer_widgets "" (Some apple_jpg) true) ].
(** ** Notions used in the statements *)

(** The bitmap the encoder hands to the JPEG writer. *)
Definition serialized (image : Image) : Image :=
  if mode image =? "RGBA" then convert_RGB image else image.

(** The conversion the encoder asks for, if any, does not raise: a bitmap
    of mode 'RGBA' has pixel data that loads. *)
Definition conversion_succeeds (env : Env) (image : Image) : Prop :=
  mode image = "RGBA" -> Image_load env image = Returns tt.


Definition data_uri (bytes : list byte) : string :=
  "data:image/jpeg;base64," +++ b64encode bytes.

(** The request the analyzer sends for a prompt and an encoded image. *)
Definition request_for (user_text uri : string) : Request :=
  {| model := "llama-3.2-11b-vision-preview";
     messages :=
       [ {| role := "user";
            msg_content := [ TextPart user_text; ImageUrlPart uri ] |} ];
     temperature := 1;
     max_tokens := 1024;
     top_p := 1;
     stream := false;
     stop := None |}.


(** The name of the logged-in user, if any: absent both when the key is
    not in the session state and when it holds [None]. *)
Definition current_user (s : SessionState) : option string :=
  match user_name s with
  | Some v => v
  | None => None
  end.

(** What the welcome screen always renders. *)
Definition gate_page : list UiElement :=
  [ StMarkdown hide_streamlit_style;
    StTitle "Welcome to Image Analyzer! 👋";
    StTextInput "Please enter your name:";
    StButton "Enter" ].

(** The prompt the script passes on for the text the user typed. *)
Definition prompt_of (w : Widgets) : string :=
  if negb (truthy (text_field w)) then "Describe the image" else text_field w.

(** Python's ASCII whitespace, and names made of nothing else. *)
Definition is_space (c : ascii) : bool :=
  existsb (Ascii.eqb c) [" "; "009"; "010"; "011"; "012"; "013"]%char.

Definition blank (name : string) : bool :=
  forallb is_space (list_ascii_of_string name).

(** The call raised, or its answer has no choice to read. *)
Definition call_failed (env : Env) (req : Request) : bool :=
  match chat_completions_create env req with
  | Fails _ => true
  | Returns completion =>
      match choices completion with
      | [] => true
      | _ :: _ => false
      end
  end.

(** The events that belong to the analyzer view: its widgets, its
    messages, the JPEG writer and the API. *)
Definition analyzer_event (ev : event) : bool :=
  match ev with
  | ImageSave _ | ApiRequest _ => true
  | Ui (StTextInput label) => label =? "Enter text"
  | Ui (StButton label) => label =? "Analyze"
  | Ui (StSubheader _) | Ui (StFileUploader _) | Ui (StImage _ _)
  | Ui (StSpinner _) | Ui (StSuccess _) | Ui (StWrite _) | Ui (StError _)
  | Ui (StInfo _) | Ui (StSidebarButton _) => true
  | _ => false
  end.

(** What the main interface renders before the upload is looked at. *)
Definition analyzer_head (n : string) : list UiElement :=
  [ StMarkdown hide_streamlit_style;
    StTitle ("Hello, " +++ n +++ "! 🎉");
    StSubheader "Image Analyzer";
    StTextInput "Enter text";
    StFileUploader "Choose an image..." ].

(** What the page shows for the value the analyzer returned. *)
Definition result_display (response : option string) : list UiElement :=
  if truthy_opt response
  then [StSuccess "Analysis complete!"; StWrite (py_str response)]
  else [StError analysis_error_banner].

(** The end of an execution of the main interface: the logout button, then
    the logout itself or the footer. *)
Definition logout_tail (n : string) (w : Widgets) : list event :=
  Ui (StSidebarButton "Logout")
    :: (if logout_button w
        then [LogInfo (activity_line n "Logout" true)]
        else [Ui (StMarkdown footer)]).

(** The same environment, except that every call to the API raises. *)
Definition with_failing_api (env : Env) (msg : string) : Env :=
  {| Image_open := Image_open env;
     Image_load := Image_load env;
     Image_save_JPEG := Image_save_JPEG env;
     chat_completions_create := fun _ => Fails msg |}.

(** The ways a call of the analyzer can go. *)
Inductive analyze_run (env : Env) (u t : string) (image : Image)
  : option string -> list event -> Prop :=
| run_convert_failed msg :
    mode image = "RGBA" ->
    Image_load env image = Fails msg ->
    analyze_run env u t image None
      [LogInfo (activity_line u "Image analysis" false)]
| run_encode_failed msg :
    conversion_succeeds env image ->
    Image_save_JPEG env (serialized image) = Fails msg ->
    analyze_run env u t image None
      [ImageSave (serialized image);
       LogError ("Error encoding image for user: " +++ msg);
       LogInfo (activity_line u "Image analysis" false)]
| run_api_raised bytes msg :
    conversion_succeeds env image ->
    Image_save_JPEG env (serialized image) = Returns bytes ->
    chat_completions_create env (request_for t (data_uri bytes)) = Fails msg ->
    analyze_run env u t image None
      [ImageSave (serialized image);
       LogInfo (activity_line u "API call" true);
       ApiRequest (request_for t (data_uri bytes));
       LogInfo (activity_line u "Image analysis" false)]
| run_no_choice bytes :
    conversion_succeeds env image ->
    Image_save_JPEG env (serialized image) = Returns bytes ->
    chat_completions_create env (request_for t (data_uri bytes))
    = Returns {| choices := [] |} ->
    analyze_run env u t image None
      [ImageSave (serialized image);
       LogInfo (activity_line u "API call" true);
       ApiRequest (request_for t (data_uri bytes));
       LogInfo (activity_line u "Image analysis" false)]
| run_first_choice bytes c rest :
    conversion_succeeds env image ->
    Image_save_JPEG env (serialized image) = Returns bytes ->
    chat_completions_create env (request_for t (data_uri bytes))
    = Returns {| choices := c :: rest |} ->
    analyze_run env u t image (content (message c))
      [ImageSave (serialized image);
       LogInfo (activity_line u "API call" true);
       ApiRequest (request_for t (data_uri bytes));
       LogInfo (activity_line u "Image analysis" true)].

(** What happens between the head of the main interface and the logout
    button. *)
Inductive upload_block (env : Env) (w : Widgets) (n : string) : list event -> Prop :=
| block_no_file :
    file_uploader w = None ->
    upload_block env w n [Ui (StInfo "Please upload an image to analyze.")]
| block_open_failed f msg :
    file_uploader w = Some f ->
    Image_open env f = Fails msg ->
    upload_block env w n
      [Ui (StError "Error processing image. Please try another image.");
       LogInfo (activity_line n "Image processing" false)]
| block_uploaded f image :
    file_uploader w = Some f ->
    Image_open env f = Returns image ->
    analyze_button w = false ->
    upload_block env w n
      [Ui (StImage image "Uploaded Image");
       LogInfo (activity_line n "Image upload" true);
       Ui (StButton "Analyze")]
| block_analysis f image r tr :
    file_uploader w = Some f ->
    Image_open env f = Returns image ->
    analyze_button w = true ->
    analyze_run env n (prompt_of w) image r tr ->
    upload_block env w n
      ([Ui (StImage image "Uploaded Image");
        LogInfo (activity_line n "Image upload" true);
        Ui (StButton "Analyze");
        Ui (StSpinner "Analyzing the image...")]
         ++ tr ++ map Ui (result_display r)).

(** The place of a character in the Base64 alphabet. *)
Fixpoint index_of (c : ascii) (l : list ascii) (i : N) : option N :=
  match l with
  | [] => None
  | x :: l' => if Ascii.eqb x c then Some i else index_of c l' (N.succ i)
  end.

Definition b64_index (c : ascii) : option N := index_of c b64_alphabet 0.

(** The bytes of one group of four Base64 digits. *)
Definition group_bytes (i1 i2 i3 i4 : N) : option (byte * byte * byte) :=
  match Byte.of_N (i1 * 4 + i2 / 16),
        Byte.of_N ((i2 mod 16) * 16 + i3 / 4),
        Byte.of_N ((i3 mod 4) * 64 + i4) with
  | Some a, Some b, Some c => Some (a, b, c)
  | _, _, _ => None
  end.

(** Base64 decoding (RFC 4648, with padding), the inverse the receiver of
    a data URI applies. *)
Fixpoint b64decode (s : string) : option (list byte) :=
  match s with
  | EmptyString => Some []
  | String c1 (String c2 (String c3 (String c4 rest))) =>
      match b64_index c1, b64_index c2 with
      | Some i1, Some i2 =>
          if Ascii.eqb c4 "="
          then
            if negb (rest =? "") then None
            else if Ascii.eqb c3 "="
            then
              match group_bytes i1 i2 0 0 with
              | Some (a, _, _) => Some [a]
              | None => None
              end
            else
              match b64_index c3 with
              | Some i3 =>
                  match group_bytes i1 i2 i3 0 with
                  | Some (a, b, _) => Some [a; b]
                  | None => None
                  end
              | None => None
              end
          else
            match b64_index c3, b64_index c4, b64decode rest with
            | Some i3, Some i4, Some tail =>
                match group_bytes i1 i2 i3 i4 with
                | Some (a, b, c) => Some (a :: b :: c :: tail)
                | None => None
                end
            | _, _, _ => None
            end
      | _, _ => None
      end
  | _ => None
  end.

(** Two answers of a library call that differ at most in the text of the
    exception raised. *)
Definition same_outcome {A} (o1 o2 : outcome A) : Prop :=
  match o1, o2 with
  | Returns a, Returns b => a = b
  | Fails _, Fails _ => True
  | _, _ => False
  end.

(** Two environments that differ at most in the texts of the exceptions
    their calls raise. *)
Definition same_answers (env1 env2 : Env) : Prop :=
  (forall f, same_outcome (Image_open env1 f) (Image_open env2 f)) /\
  (forall image, same_outcome (Image_load env1 image) (Image_load env2 image)) /\
  (forall image, same_outcome (Image_save_JPEG env1 image) (Image_save_JPEG env2 image)) /\
  (forall req,
      same_outcome (chat_completions_create env1 req) (chat_completions_create env2 req)).

(** ** Base64: checks of the encoder against RFC 4648 *)

Example b64encode_empty : b64encode [] = "".
Proof. reflexivity. Qed.

Example b64encode_f : b64encode [x66] = "Zg==".
Proof. reflexivity. Qed.

Example b64encode_fo : b64encode [x66; x6f] = "Zm8=".
Proof. reflexivity. Qed.

Example b64encode_foo : b64encode [x66; x6f; x6f] = "Zm9v".
Proof. reflexivity. Qed.

Example b64encode_foobar :
  b64encode [x66; x6f; x6f; x62; x61; x72] = "Zm9vYmFy".
Proof. reflexivity. Qed.

Example b64encode_high_bytes : b64encode [xff; xd8; xff; xd9] = "/9j/2Q==".
Proof. reflexivity. Qed.

(** Induction on a list of bytes, three bytes at a time, as the encoder
    consumes it. *)
Lemma triples_ind (P : list byte -> Prop) :
  P [] ->
  (forall a, P [a]) ->
  (forall a b, P [a; b]) ->
  (forall a b c rest, P rest -> P (a :: b :: c :: rest)) ->
  forall bs, P bs.
Proof.
  intros Hnil Hone Htwo Hstep.
  assert (Hall : forall bs, P bs /\ (forall a, P (a :: bs)) /\ (forall a b, P (a :: b :: bs))).
  { induction bs as [ | c bs (IH0 & IH1 & IH2)].
    - auto.
    - repeat split; auto. }
  intros bs. apply Hall.
Qed.

(** The encoding has four characters for every started group of three
    bytes. *)
Lemma b64encode_length bs :
  String.length (b64encode bs) = (4 * ((length bs + 2) / 3))%nat.
Proof.
  induction bs as [ | a | a b | a b c rest IH] using triples_ind;
    try reflexivity.
  change (String.length (b64encode (a :: b :: c :: rest)))
    with (S (S (S (S (String.length (b64encode rest)))))).
  rewrite IH.
  change (length (a :: b :: c :: rest) + 2)%nat
    with (3 + (length rest + 2))%nat.
  replace (3 + (length rest + 2))%nat with (1 * 3 + (length rest + 2))%nat by lia.
  rewrite Nat.div_add_l by lia. lia.
Qed.

Example b64decode_foobar :
  b64decode "Zm9vYmFy" = Some [x66; x6f; x6f; x62; x61; x72].
Proof. reflexivity. Qed.

Example b64decode_padded : b64decode "/9j/2Q==" = Some [xff; xd8; xff; xd9].
Proof. reflexivity. Qed.

Example b64decode_rejects_bad_length : b64decode "Zm9" = None.
Proof. reflexivity. Qed.

(** Every six-bit value has its own digit, and no digit is the padding
    character. *)
Lemma b64_digit n :
  (n < 64)%N ->
  b64_index (b64_char n) = Some n /\ Ascii.eqb (b64_char n) "=" = false.
Proof.
  intros Hn.
  assert (Hm : (N.to_nat n < 64)%nat) by lia.
  rewrite <- (N2Nat.id n).
  revert Hm. generalize (N.to_nat n). clear. intros m Hm.
  do 64 (destruct m as [ | m]; [vm_compute; split; reflexivity | ]).
  lia.
Qed.

Lemma split_digit r s k :
  (s < k -> (r * k + s) / k = r /\ (r * k + s) mod k = s)%N.
Proof.
  intros H. split; symmetry.
  - apply (N.div_unique _ k r s); lia.
  - apply (N.mod_unique _ k r s); lia.
Qed.

Lemma sextets_bounded x y z :
  (x <= 255 -> y <= 255 -> z <= 255 ->
   x / 4 < 64 /\ (x mod 4) * 16 + y / 16 < 64 /\
   (y mod 16) * 4 + z / 64 < 64 /\ z mod 64 < 64)%N.
Proof.
  intros Hx Hy Hz.
  pose proof (N.div_mod' x 4). pose proof (N.mod_lt x 4 ltac:(lia)).
  pose proof (N.div_mod' y 16). pose proof (N.mod_lt y 16 ltac:(lia)).
  pose proof (N.div_mod' z 64). pose proof (N.mod_lt z 64 ltac:(lia)).
  generalize dependent (x / 4)%N. generalize dependent (x mod 4)%N.
  generalize dependent (y / 16)%N. generalize dependent (y mod 16)%N.
  generalize dependent (z / 64)%N. generalize dependent (z mod 64)%N.
  intros. lia.
Qed.

Lemma sextets_rebuild x y z :
  (y <= 255 -> z <= 255 ->
   (x / 4) * 4 + ((x mod 4) * 16 + y / 16) / 16 = x /\
   (((x mod 4) * 16 + y / 16) mod 16) * 16 + ((y mod 16) * 4 + z / 64) / 4 = y /\
   (((y mod 16) * 4 + z / 64) mod 4) * 64 + z mod 64 = z)%N.
Proof.
  intros Hy Hz.
  assert (Hs : (y / 16 < 16)%N) by (apply N.Div0.div_lt_upper_bound; lia).
  assert (Hu : (z / 64 < 4)%N) by (apply N.Div0.div_lt_upper_bound; lia).
  destruct (split_digit (x mod 4) (y / 16) 16 Hs) as [-> ->].
  destruct (split_digit (y mod 16) (z / 64) 4 Hu) as [-> ->].
  pose proof (N.div_mod' x 4). pose proof (N.div_mod' y 16).
  pose proof (N.div_mod' z 64).
  lia.
Qed.

(** The four digits of a group of three bytes give the three bytes back. *)
Lemma group_bytes_rebuild a b c :
  group_bytes (Byte.to_N a / 4)
    ((Byte.to_N a mod 4) * 16 + Byte.to_N b / 16)
    ((Byte.to_N b mod 16) * 4 + Byte.to_N c / 64)
    (Byte.to_N c mod 64)
  = Some (a, b, c).
Proof.
  destruct (sextets_rebuild (Byte.to_N a) (Byte.to_N b) (Byte.to_N c))
    as (Hx & Hy & Hz); try apply Byte.to_N_bounded.
  unfold group_bytes. rewrite Hx, Hy, Hz, !Byte.of_to_N. reflexivity.
Qed.

(** Decoding undoes encoding: the Base64 text determines the bytes. *)
Lemma b64decode_encode bs : b64decode (b64encode bs) = Some bs.
Proof.
  induction bs as [ | a | a b | a b c rest IH] using triples_ind.
  - reflexivity.
  - pose proof (group_bytes_rebuild a x00 x00) as Hgroup.
    destruct (sextets_bounded (Byte.to_N a) 0 0) as (H1 & H2 & _);
      try apply Byte.to_N_bounded; try lia.
    change (Byte.to_N x00) with 0%N in Hgroup.
    change (0 / 16)%N with 0%N in *. change (0 mod 16 * 4 + 0 / 64)%N with 0%N in *.
    change (0 mod 64)%N with 0%N in *.
    rewrite N.add_0_r in *.
    destruct (b64_digit _ H1) as [E1 _]. destruct (b64_digit _ H2) as [E2 _].
    cbn [b64encode b64decode]. rewrite E1, E2.
    cbn [Ascii.eqb Bool.eqb negb String.eqb andb].
    rewrite Hgroup. reflexivity.
  - pose proof (group_bytes_rebuild a b x00) as Hgroup.
    destruct (sextets_bounded (Byte.to_N a) (Byte.to_N b) 0) as (H1 & H2 & H3 & _);
      try apply Byte.to_N_bounded; try lia.
    change (Byte.to_N x00) with 0%N in Hgroup.
    change (0 / 64)%N with 0%N in *. change (0 mod 64)%N with 0%N in *.
    rewrite N.add_0_r in *.
    destruct (b64_digit _ H1) as [E1 _]. destruct (b64_digit _ H2) as [E2 _].
    destruct (b64_digit _ H3) as [E3 P3].
    cbn [b64encode b64decode]. rewrite E1, E2.
    cbn [Ascii.eqb Bool.eqb negb String.eqb andb].
    rewrite P3, E3, Hgroup. reflexivity.
  - pose proof (group_bytes_rebuild a b c) as Hgroup.
    destruct (sextets_bounded (Byte.to_N a) (Byte.to_N b) (Byte.to_N c))
      as (H1 & H2 & H3 & H4); try apply Byte.to_N_bounded.
    destruct (b64_digit _ H1) as [E1 _]. destruct (b64_digit _ H2) as [E2 _].
    destruct (b64_digit _ H3) as [E3 _]. destruct (b64_digit _ H4) as [E4 P4].
    cbn [b64encode b64decode]. rewrite E1, E2, P4, E3, E4, IH, Hgroup.
    reflexivity.
Qed.
Arguments activity_line : simpl never.
Arguments b64encode : simpl never.
Arguments String.append : simpl never.

Arguments analyze_image_and_text : simpl never.
(** ** The encoder: lemmas *)

(** Either the conversion the encoder asks for goes through, or the bitmap
    is 'RGBA' and loading its pixel data raises. *)
Lemma conversion_cases env image :
  conversion_succeeds env image \/
  exists msg, mode image = "RGBA" /\ Image_load env image = Fails msg.
Proof.
  unfold conversion_succeeds.
  destruct (Image_load env image) as [[] | msg] eqn:Hload; [left; auto | ].
  destruct (String.eqb_spec (mode image) "RGBA") as [Hmode | Hmode].
  - right. eauto.
  - left. intros Hrgba. contradiction.
Qed.

(** The conversion stands before the [try]: what it raises leaves the
    encoder, and nothing has been written or logged by then. *)
Lemma encode_convert_raises env image s msg :
  mode image = "RGBA" ->
  Image_load env image = Fails msg ->
  encode_image_to_base64 env image s = (Raise (Exception msg), s, []).
Proof.
  intros Hmode Hload.
  unfold encode_image_to_base64, image_convert_RGB, bind, lift.
  rewrite Hmode. cbn [String.eqb Ascii.eqb Bool.eqb]. rewrite Hload. reflexivity.
Qed.

Lemma encode_writer_returns env image s bytes :
  conversion_succeeds env image ->
  Image_save_JPEG env (serialized image) = Returns bytes ->
  encode_image_to_base64 env image s
  = (Ok (Some (data_uri bytes)), s, [ImageSave (serialized image)]).
Proof.
  intros Hconv Hsave.
  unfold encode_image_to_base64, image_convert_RGB, try_except, bind, lift, emit.
  unfold serialized in *.
  destruct (String.eqb_spec (mode image) "RGBA") as [Hmode | Hmode].
  - rewrite (Hconv Hmode). cbn [ret]. rewrite Hsave. reflexivity.
  - cbn [ret]. rewrite Hsave. reflexivity.
Qed.

Lemma encode_writer_fails env image s msg :
  conversion_succeeds env image ->
  Image_save_JPEG env (serialized image) = Fails msg ->
  encode_image_to_base64 env image s
  = (Ok None, s,
     [ImageSave (serialized image);
      LogError ("Error encoding image for user: " +++ msg)]).
Proof.
  intros Hconv Hsave.
  unfold encode_image_to_base64, image_convert_RGB, try_except, bind, lift, emit.
  unfold serialized in *.
  destruct (String.eqb_spec (mode image) "RGBA") as [Hmode | Hmode].
  - rewrite (Hconv Hmode). cbn [ret]. rewrite Hsave. reflexivity.
  - cbn [ret]. rewrite Hsave. reflexivity.
Qed.

Lemma encode_some_inv env image s uri :
  outcome_of (encode_image_to_base64 env image s) = Ok (Some uri) ->
  exists bytes,
    conversion_succeeds env image /\
    Image_save_JPEG env (serialized image) = Returns bytes /\ uri = data_uri bytes.
Proof.
  destruct (conversion_cases env image) as [Hconv | (m & Hmode & Hload)].
  - destruct (Image_save_JPEG env (serialized image)) as [bytes | msg] eqn:Hsave.
    + rewrite (encode_writer_returns _ _ _ _ Hconv Hsave). cbn. intros [= <-]. eauto.
    + rewrite (encode_writer_fails _ _ _ _ Hconv Hsave). cbn. discriminate.
  - rewrite (encode_convert_raises _ _ _ _ Hmode Hload). cbn. discriminate.
Qed.

Lemma encode_not_some_inv env image s :
  (forall uri, outcome_of (encode_image_to_base64 env image s) <> Ok (Some uri)) ->
  (exists msg, mode image = "RGBA" /\ Image_load env image = Fails msg) \/
  (conversion_succeeds env image /\
   exists msg, Image_save_JPEG env (serialized image) = Fails msg).
Proof.
  intros Hnot.
  destruct (conversion_cases env image) as [Hconv | Hraise]; [ | left; exact Hraise].
  right. split; [exact Hconv | ].
  destruct (Image_save_JPEG env (serialized image)) as [bytes | msg] eqn:Hsave.
  - exfalso. apply (Hnot (data_uri bytes)).
    rewrite (encode_writer_returns _ _ _ _ Hconv Hsave). reflexivity.
  - eauto.
Qed.

(** ** The analyzer: lemmas *)

Ltac run_analyze :=
  unfold analyze_image_and_text, try_except, bind;
  repeat match goal with
  | C : conversion_succeeds _ _, H : Image_save_JPEG _ _ = Returns _ |- _ =>
      rewrite (encode_writer_returns _ _ _ _ C H)
  | C : conversion_succeeds _ _, H : Image_save_JPEG _ _ = Fails _ |- _ =>
      rewrite (encode_writer_fails _ _ _ _ C H)
  end;
  cbn;
  repeat match goal with
  | H : chat_completions_create _ _ = _ |- _ => fold (data_uri) in H |- *; unfold request_for in H; rewrite H; cbn
  end.

(** What the conversion raises is caught by the analyzer like any other
    failure. *)
Lemma analyze_convert_failed env u t image s msg :
  mode image = "RGBA" ->
  Image_load env image = Fails msg ->
  analyze_image_and_text env u t image s
  = (Ok None, s, [LogInfo (activity_line u "Image analysis" false)]).
Proof.
  intros Hmode Hload.
  unfold analyze_image_and_text, try_except, bind.
  rewrite (encode_convert_raises _ _ _ _ Hmode Hload). reflexivity.
Qed.

Lemma analyze_encode_failed env u t image s msg :
  conversion_succeeds env image ->
  Image_save_JPEG env (serialized image) = Fails msg ->
  analyze_image_and_text env u t image s
  = (Ok None, s,
     [ImageSave (serialized image);
      LogError ("Error encoding image for user: " +++ msg);
      LogInfo (activity_line u "Image analysis" false)]).
Proof. intros Hconv Hsave. run_analyze. reflexivity. Qed.

Lemma analyze_api_raised env u t image s bytes msg :
  conversion_succeeds env image ->
  Image_save_JPEG env (serialized image) = Returns bytes ->
  chat_completions_create env (request_for t (data_uri bytes)) = Fails msg ->
  analyze_image_and_text env u t image s
  = (Ok None, s,
     [ImageSave (serialized image);
      LogInfo (activity_line u "API call" true);
      ApiRequest (request_for t (data_uri bytes));
      LogInfo (activity_line u "Image analysis" false)]).
Proof. intros Hconv Hsave Hapi. run_analyze. reflexivity. Qed.

Lemma analyze_no_choice env u t image s bytes :
  conversion_succeeds env image ->
  Image_save_JPEG env (serialized image) = Returns bytes ->
  chat_completions_create env (request_for t (data_uri bytes))
  = Returns {| choices := [] |} ->
  analyze_image_and_text env u t image s
  = (Ok None, s,
     [ImageSave (serialized image);
      LogInfo (activity_line u "API call" true);
      ApiRequest (request_for t (data_uri bytes));
      LogInfo (activity_line u "Image analysis" false)]).
Proof. intros Hconv Hsave Hapi. run_analyze. reflexivity. Qed.

Lemma analyze_first_choice env u t image s bytes c rest :
  conversion_succeeds env image ->
  Image_save_JPEG env (serialized image) = Returns bytes ->
  chat_completions_create env (request_for t (data_uri bytes))
  = Returns {| choices := c :: rest |} ->
  analyze_image_and_text env u t image s
  = (Ok (content (message c)), s,
     [ImageSave (serialized image);
      LogInfo (activity_line u "API call" true);
      ApiRequest (request_for t (data_uri bytes));
      LogInfo (activity_line u "Image analysis" true)]).
Proof. intros Hconv Hsave Hapi. run_analyze. reflexivity. Qed.

(** The analyzer always returns, and leaves the session as it was. *)
Lemma analyze_total env u t image s :
  exists r tr, analyze_image_and_text env u t image s = (Ok r, s, tr).
Proof.
  destruct (conversion_cases env image) as [Hconv | (m & Hmode & Hload)].
  2: { rewrite (analyze_convert_failed _ _ _ _ _ _ Hmode Hload). eauto. }
  destruct (Image_save_JPEG env (serialized image)) as [bytes | msg] eqn:Hsave.
  - destruct (chat_completions_create env (request_for t (data_uri bytes)))
      as [[[ | c rest]] | msg] eqn:Hapi.
    + rewrite (analyze_no_choice _ _ _ _ _ _ Hconv Hsave Hapi). eauto.
    + rewrite (analyze_first_choice _ _ _ _ _ _ _ _ Hconv Hsave Hapi). eauto.
    + rewrite (analyze_api_raised _ _ _ _ _ _ _ Hconv Hsave Hapi). eauto.
  - rewrite (analyze_encode_failed _ _ _ _ _ _ Hconv Hsave). eauto.
Qed.

(** ** The script: lemmas *)

Ltac run_script :=
  cbv beta iota zeta delta
    [main bind ret raise emit st st_text_input st_button st_sidebar_button
     st_file_uploader st_rerun session_user_name set_session_user_name
     get_session put_session try_except lift log_activity py_str
     user_name app map gate_page trace_of session_of outcome_of fst snd].

Lemma main_gate_idle env w s :
  current_user s = None ->
  enter_button w = false ->
  main env w s = (Ok tt, {| user_name := Some None |}, map Ui gate_page).
Proof.
  intros Hs Hb. destruct s as [[[n|]|]]; try discriminate;
    run_script; rewrite Hb; reflexivity.
Qed.

Lemma main_gate_login env w s :
  current_user s = None ->
  enter_button w = true ->
  truthy (name_field w) = true ->
  main env w s
  = (Raise RerunException,
     {| user_name := Some (Some (name_field w)) |},
     map Ui gate_page ++ [LogInfo (activity_line (name_field w) "Login" true)]).
Proof.
  intros Hs Hb Hn. destruct s as [[[n|]|]]; try discriminate;
    run_script; rewrite Hb, Hn; reflexivity.
Qed.

Lemma main_gate_empty env w s :
  current_user s = None ->
  enter_button w = true ->
  truthy (name_field w) = false ->
  main env w s
  = (Ok tt,
     {| user_name := Some None |},
     map Ui gate_page
       ++ [Ui (StWarning "Please enter your name to continue.");
           LogInfo (activity_line "anonymous" "Login" false)]).
Proof.
  intros Hs Hb Hn. destruct s as [[[n|]|]]; try discriminate;
    run_script; rewrite Hb, Hn; reflexivity.
Qed.

(** The three ways the welcome screen can go. *)
Lemma main_gate_cases env w s :
  current_user s = None ->
  exists extra,
    trace_of (main env w s) = map Ui gate_page ++ extra /\
    (extra = []
     \/ extra = [LogInfo (activity_line (name_field w) "Login" true)]
     \/ extra = [Ui (StWarning "Please enter your name to continue.");
                 LogInfo (activity_line "anonymous" "Login" false)]).
Proof.
  intros Hs.
  destruct (enter_button w) eqn:Hb.
  - destruct (truthy (name_field w)) eqn:Hn.
    + rewrite (main_gate_login _ _ _ Hs Hb Hn). cbn [trace_of snd]. eauto.
    + rewrite (main_gate_empty _ _ _ Hs Hb Hn). cbn [trace_of snd]. eauto 6.
  - rewrite (main_gate_idle _ _ _ Hs Hb). cbn [trace_of snd].
    exists []. rewrite app_nil_r. auto.
Qed.

(** In the main view the script ends normally or by the rerun of a logout;
    the session is untouched unless the user logs out. *)
Lemma main_view_end env w s n :
  user_name s = Some (Some n) ->
  exists tr,
    main env w s
    = (if logout_button w then Raise RerunException else Ok tt,
       if logout_button w then {| user_name := Some None |} else s,
       tr).
Proof.
  intros Hs. destruct s as [u]. cbn in Hs. subst u.
  run_script.
  destruct (file_uploader w) as [f | ].
  - destruct (Image_open env f) as [image | msg].
    + destruct (analyze_button w).
      * destruct (analyze_total env n
                    (if negb (truthy (text_field w))
                     then "Describe the image" else text_field w)
                    image {| user_name := Some (Some n) |}) as (r & tr & Heq).
        rewrite Heq.
        destruct (truthy_opt r); destruct (logout_button w); eauto.
      * destruct (logout_button w); eauto.
    + destruct (logout_button w); eauto.
  - destruct (logout_button w); eauto.
Qed.

Ltac run_view :=
  cbv beta iota zeta delta
    [main bind ret raise emit st st_text_input st_button st_sidebar_button
     st_file_uploader st_rerun session_user_name set_session_user_name
     get_session put_session try_except lift log_activity py_str
     user_name analyzer_head result_display logout_tail
     trace_of session_of outcome_of fst snd].

Lemma main_view_no_file env w s n :
  user_name s = Some (Some n) ->
  file_uploader w = None ->
  trace_of (main env w s)
  = map Ui (analyzer_head n)
      ++ [Ui (StInfo "Please upload an image to analyze.")]
      ++ logout_tail n w.
Proof.
  intros Hs Hfile. destruct s as [u]. cbn in Hs. subst u.
  run_view. rewrite Hfile. destruct (logout_button w); reflexivity.
Qed.

Lemma main_view_open_failed env w s n f msg :
  user_name s = Some (Some n) ->
  file_uploader w = Some f ->
  Image_open env f = Fails msg ->
  trace_of (main env w s)
  = map Ui (analyzer_head n)
      ++ [Ui (StError "Error processing image. Please try another image.");
          LogInfo (activity_line n "Image processing" false)]
      ++ logout_tail n w.
Proof.
  intros Hs Hfile Hopen. destruct s as [u]. cbn in Hs. subst u.
  run_view. rewrite Hfile, Hopen. destruct (logout_button w); reflexivity.
Qed.

Lemma main_view_uploaded env w s n f image :
  user_name s = Some (Some n) ->
  file_uploader w = Some f ->
  Image_open env f = Returns image ->
  analyze_button w = false ->
  trace_of (main env w s)
  = map Ui (analyzer_head n)
      ++ [Ui (StImage image "Uploaded Image");
          LogInfo (activity_line n "Image upload" true);
          Ui (StButton "Analyze")]
      ++ logout_tail n w.
Proof.
  intros Hs Hfile Hopen Hclick. destruct s as [u]. cbn in Hs. subst u.
  run_view. rewrite Hfile, Hopen, Hclick. destruct (logout_button w); reflexivity.
Qed.

Lemma main_view_analysis env w s n f image r tr :
  user_name s = Some (Some n) ->
  file_uploader w = Some f ->
  Image_open env f = Returns image ->
  analyze_button w = true ->
  analyze_image_and_text env n (prompt_of w) image s = (Ok r, s, tr) ->
  trace_of (main env w s)
  = map Ui (analyzer_head n)
      ++ [Ui (StImage image "Uploaded Image");
          LogInfo (activity_line n "Image upload" true);
          Ui (StButton "Analyze");
          Ui (StSpinner "Analyzing the image...")]
      ++ tr ++ map Ui (result_display r) ++ logout_tail n w.
Proof.
  intros Hs Hfile Hopen Hclick Hrun. destruct s as [u]. cbn in Hs. subst u.
  unfold prompt_of in Hrun.
  run_view. rewrite Hfile, Hopen, Hclick, Hrun.
  destruct (truthy_opt r); destruct (logout_button w);
    cbn [app map]; rewrite <- ?app_assoc; reflexivity.
Qed.

Lemma main_view_session env w s n :
  user_name s = Some (Some n) ->
  session_of (main env w s)
  = if logout_button w then {| user_name := Some None |} else s.
Proof.
  intros Hs. destruct (main_view_end env w s n Hs) as [tr ->]. reflexivity.
Qed.

(** Case analysis on what happened at the welcome screen. *)
Ltac gate_cases env w s :=
  let Hb := fresh "Hb" in
  let Hn := fresh "Hn" in
  destruct (enter_button w) eqn:Hb;
  [ destruct (truthy (name_field w)) eqn:Hn;
    [ rewrite (main_gate_login env w s eq_refl Hb Hn)
    | rewrite (main_gate_empty env w s eq_refl Hb Hn) ]
  | rewrite (main_gate_idle env w s eq_refl Hb) ].

(** No exception other than the rerun request leaves the script. *)
Lemma main_no_crash env w s msg :
  outcome_of (main env w s) <> Raise (Exception msg).
Proof.
  destruct s as [[[n | ] | ]].
  - destruct (main_view_end env w {| user_name := Some (Some n) |} n eq_refl)
      as [tr ->].
    destruct (logout_button w); discriminate.
  - gate_cases env w {| user_name := Some None |}; discriminate.
  - gate_cases env w {| user_name := None |}; discriminate.
Qed.

Lemma script_run_eq env w s :
  script_run env w s = (session_of (main env w s), trace_of (main env w s)).
Proof.
  pose proof (main_no_crash env w s) as Hno.
  unfold script_run.
  destruct (main env w s) as [[[a | [msg | ]] s'] t]; try reflexivity.
  exfalso. exact (Hno msg eq_refl).
Qed.

Lemma run_session_cons env w rest s :
  run_session ((env, w) :: rest) s
  = (fst (run_session rest (session_of (main env w s))),
     trace_of (main env w s)
       ++ snd (run_session rest (session_of (main env w s)))).
Proof.
  cbn [run_session]. rewrite script_run_eq.
  destruct (run_session rest (session_of (main env w s))) as [s2 t2].
  reflexivity.
Qed.

(** The session states that are reached hold no name, or a name that
    passed the gate. *)
Lemma reachable_user_named s :
  reachable s ->
  match user_name s with
  | Some (Some n) => truthy n = true
  | _ => True
  end.
Proof.
  induction 1 as [ | env w s Hreach IH].
  - exact I.
  - rewrite script_run_eq. cbn [fst].
    destruct s as [[[n | ] | ]]; cbn [user_name] in IH.
    + rewrite (main_view_session env w {| user_name := Some (Some n) |} n eq_refl).
      destruct (logout_button w); [exact I | exact IH].
    + gate_cases env w {| user_name := Some None |};
        cbn [session_of fst snd user_name]; auto.
    + gate_cases env w {| user_name := None |};
        cbn [session_of fst snd user_name]; auto.
Qed.

Lemma activity_log_app t1 t2 :
  activity_log (t1 ++ t2) = activity_log t1 ++ activity_log t2.
Proof.
  induction t1 as [ | [msg | msg | img | req | e] t1 IH]; cbn; rewrite ?IH; reflexivity.
Qed.

Lemma page_app t1 t2 : page (t1 ++ t2) = page t1 ++ page t2.
Proof.
  induction t1 as [ | [msg | msg | img | req | e] t1 IH]; cbn; rewrite ?IH; reflexivity.
Qed.

Lemma page_map_Ui l : page (map Ui l) = l.
Proof. induction l as [ | e l IH]; cbn; rewrite ?IH; reflexivity. Qed.

Lemma activity_log_map_Ui l : activity_log (map Ui l) = [].
Proof. induction l as [ | e l IH]; cbn; auto. Qed.

Lemma suffix_app {A} (l1 l2 suffix : list A) :
  (exists before, l2 = before ++ suffix) ->
  exists before, l1 ++ l2 = before ++ suffix.
Proof.
  intros [before ->]. exists (l1 ++ before). apply app_assoc.
Qed.

(** ** The session gate: further facts *)

(** A non-empty name establishes the session for that name, logs its
    successful "Login" and asks for the rerun that shows the main view. *)
Fact alice_logs_in env :
  main env (welcome_widgets "Alice" true) fresh_session
  = (Raise RerunException,
     {| user_name := Some (Some "Alice") |},
     map Ui gate_page ++ [LogInfo "User 'Alice' - Login: success"]).
Proof.
  exact (main_gate_login env (welcome_widgets "Alice" true) fresh_session
           eq_refl eq_refl eq_refl).
Qed.

(** A logged-in state is reachable, so the main view is not out of reach. *)
Fact logged_in_is_reachable n :
  truthy n = true -> reachable {| user_name := Some (Some n) |}.
Proof.
  intros Hn.
  pose (env := sample_env rgb_pixel (Fails "offline")).
  replace {| user_name := Some (Some n) |}
    with (fst (script_run env (welcome_widgets n true) fresh_session)).
  - apply reachable_step, reachable_fresh.
  - rewrite script_run_eq.
    rewrite (main_gate_login env (welcome_widgets n true) fresh_session
               eq_refl eq_refl Hn).
    reflexivity.
Qed.

(** Logging out clears the user name, logs a successful "Logout" for the
    name that was there, and asks for the rerun that shows the welcome
    screen. *)
Lemma logout_clears_session env w s n :
  user_name s = Some (Some n) ->
  logout_button w = true ->
  outcome_of (main env w s) = Raise RerunException /\
  current_user (session_of (main env w s)) = None /\
  exists before,
    trace_of (main env w s)
    = before ++ [Ui (StSidebarButton "Logout");
                 LogInfo (activity_line n "Logout" true)].
Proof.
  intros Hs Hout.
  pose proof (main_view_session env w s n Hs) as Hsession.
  destruct (main_view_end env w s n Hs) as [tr Hend].
  rewrite Hout in Hsession, Hend.
  split; [rewrite Hend; reflexivity | ].
  split; [rewrite Hsession; reflexivity | ].
  assert (Htail : logout_tail n w
                  = [Ui (StSidebarButton "Logout");
                     LogInfo (activity_line n "Logout" true)])
    by (unfold logout_tail; rewrite Hout; reflexivity).
  destruct (file_uploader w) as [f | ] eqn:Hfile.
  - destruct (Image_open env f) as [image | msg] eqn:Hopen.
    + destruct (analyze_button w) eqn:Hclick.
      * destruct (analyze_total env n (prompt_of w) image s) as (r & t & Hrun).
        rewrite (main_view_analysis env w s n f image r t Hs Hfile Hopen Hclick Hrun).
        rewrite Htail, !app_assoc. eauto.
      * rewrite (main_view_uploaded env w s n f image Hs Hfile Hopen Hclick).
        rewrite Htail, !app_assoc. eauto.
    + rewrite (main_view_open_failed env w s n f msg Hs Hfile Hopen).
      rewrite Htail, !app_assoc. eauto.
  - rewrite (main_view_no_file env w s n Hs Hfile).
    rewrite Htail, !app_assoc. eauto.
Qed.

(** Over a whole session, a request reaches the API only in an execution
    that started with a user name present. *)
Lemma session_requests_need_a_user runs :
  forall s,
    current_user s = None ->
    api_requests (snd (run_session runs s)) <> [] ->
    exists n, In (LogInfo (activity_line n "Login" true)) (snd (run_session runs s)).
Proof.
  induction runs as [ | [env w] rest IH]; intros s Hs Hreq.
  - exfalso. apply Hreq. reflexivity.
  - rewrite run_session_cons in Hreq |- *. cbn [snd] in Hreq |- *.
    destruct (enter_button w) eqn:Hb.
    + destruct (truthy (name_field w)) eqn:Hn.
      * exists (name_field w).
        rewrite (main_gate_login env w s Hs Hb Hn). cbn [trace_of snd].
        apply in_or_app. left. apply in_or_app. right. left. reflexivity.
      * rewrite (main_gate_empty env w s Hs Hb Hn) in Hreq |- *.
        cbn [trace_of session_of fst snd] in Hreq |- *.
        destruct (IH {| user_name := Some None |} eq_refl) as [n Hin].
        -- intros Hnone. apply Hreq. cbn. exact Hnone.
        -- exists n. apply in_or_app. right. exact Hin.
    + rewrite (main_gate_idle env w s Hs Hb) in Hreq |- *.
      cbn [trace_of session_of fst snd] in Hreq |- *.
      destruct (IH {| user_name := Some None |} eq_refl) as [n Hin].
      * intros Hnone. apply Hreq. cbn. exact Hnone.
      * exists n. apply in_or_app. right. exact Hin.
Qed.

(** * The claims *)

(** ** Session gate *)

(** C1, as stated, fails on a name of one space: the script tests the
    truth value of the name as typed and does not trim it, so the name is
    accepted, the session is established for it and a successful "Login"
    is logged. *)
Lemma whitespace_name_is_accepted :
  blank " " = true /\
  current_user
    (session_of
       (main (sample_env rgb_pixel (Returns apple_completion))
          (welcome_widgets " " true) fresh_session)) = Some " " /\
  activity_log
    (trace_of
       (main (sample_env rgb_pixel (Returns apple_completion))
          (welcome_widgets " " true) fresh_session))
  = ["User ' ' - Login: success"].
Proof. repeat split. Qed.

(** C1, amended: submitting the empty name never establishes a session
    (the user name stays absent), shows the warning, and logs exactly one
    activity entry, the failed "Login" of actor "anonymous". *)
Theorem empty_name_is_rejected env w s :
  current_user s = None ->
  name_field w = "" ->
  enter_button w = true ->
  outcome_of (main env w s) = Ok tt /\
  current_user (session_of (main env w s)) = None /\
  activity_log (trace_of (main env w s))
  = [activity_line "anonymous" "Login" false] /\
  page (trace_of (main env w s))
  = gate_page ++ [StWarning "Please enter your name to continue."].
Proof.
  intros Hs Hname Hclick.
  assert (Hfalsy : truthy (name_field w) = false) by (rewrite Hname; reflexivity).
  rewrite (main_gate_empty env w s Hs Hclick Hfalsy).
  repeat split.
Qed.

(** The empty name, submitted in a fresh session. *)
Lemma empty_name_is_rejected_witness :
  current_user fresh_session = None /\
  name_field (welcome_widgets "" true) = "" /\
  enter_button (welcome_widgets "" true) = true /\
  activity_log
    (trace_of
       (main (sample_env rgb_pixel (Returns apple_completion))
          (welcome_widgets "" true) fresh_session))
  = ["User 'anonymous' - Login: failed"].
Proof.
  split; [reflexivity | ]. split; [reflexivity | ]. split; [reflexivity | ].
  apply (empty_name_is_rejected
           (sample_env rgb_pixel (Returns apple_completion))
           (welcome_widgets "" true) fresh_session); reflexivity.
Defined.

(** ** Analyzer *)

(** C2: for every environment, actor, prompt, image and session, the
    analyzer returns a value (the text or the absent value) and never
    raises; the session is left as it was, and the last thing it does is
    to log an "Image analysis" entry.  When that entry is a failure the
    absent value is returned; when it is a success, the value is the
    content of the first choice of the answer to a request it sent. *)
Theorem analyze_never_raises env u t image s :
  exists r tr b,
    analyze_image_and_text env u t image s
    = (Ok r, s, tr ++ [LogInfo (activity_line u "Image analysis" b)]) /\
    (if b
     then exists req c rest,
            In (ApiRequest req) tr /\
            chat_completions_create env req = Returns {| choices := c :: rest |} /\
            r = content (message c)
     else r = None).
Proof.
  destruct (conversion_cases env image) as [Hconv | (m & Hmode & Hload)].
  2: { rewrite (analyze_convert_failed _ _ _ _ _ _ Hmode Hload).
       exists None, [], false. split; reflexivity. }
  destruct (Image_save_JPEG env (serialized image)) as [bytes | msg] eqn:Hsave.
  - destruct (chat_completions_create env (request_for t (data_uri bytes)))
      as [[[ | c rest]] | msg] eqn:Hapi.
    + rewrite (analyze_no_choice _ _ _ _ _ _ Hconv Hsave Hapi).
      exists None, [ImageSave (serialized image);
                    LogInfo (activity_line u "API call" true);
                    ApiRequest (request_for t (data_uri bytes))], false.
      split; reflexivity.
    + rewrite (analyze_first_choice _ _ _ _ _ _ _ _ Hconv Hsave Hapi).
      exists (content (message c)),
             [ImageSave (serialized image);
              LogInfo (activity_line u "API call" true);
              ApiRequest (request_for t (data_uri bytes))], true.
      split; [reflexivity | ].
      exists (request_for t (data_uri bytes)), c, rest.
      split; [cbn; auto | ]. split; [exact Hapi | reflexivity].
    + rewrite (analyze_api_raised _ _ _ _ _ _ _ Hconv Hsave Hapi).
      exists None, [ImageSave (serialized image);
                    LogInfo (activity_line u "API call" true);
                    ApiRequest (request_for t (data_uri bytes))], false.
      split; reflexivity.
  - rewrite (analyze_encode_failed _ _ _ _ _ _ Hconv Hsave).
    exists None, [ImageSave (serialized image);
                  LogError ("Error encoding image for user: " +++ msg)], false.
    split; reflexivity.
Qed.

(** C5: whenever the encoder does not produce a data URI, the analyzer
    returns the absent value, sends no request to the API, and the only
    activity entry it logs is one failed "Image analysis"; no "API call"
    entry is logged. *)
Theorem encoder_failure_skips_the_api env u t image s :
  (forall uri, outcome_of (encode_image_to_base64 env image s) <> Ok (Some uri)) ->
  outcome_of (analyze_image_and_text env u t image s) = Ok None /\
  api_requests (trace_of (analyze_image_and_text env u t image s)) = [] /\
  activity_log (trace_of (analyze_image_and_text env u t image s))
  = [activity_line u "Image analysis" false].
Proof.
  intros Hfail.
  destruct (encode_not_some_inv env image s Hfail)
    as [(msg & Hmode & Hload) | (Hconv & msg & Hsave)].
  - rewrite (analyze_convert_failed _ _ _ _ _ _ Hmode Hload). repeat split.
  - rewrite (analyze_encode_failed _ _ _ _ _ _ Hconv Hsave). repeat split.
Qed.

(** A bitmap of mode 'LA', which Pillow's JPEG writer refuses. *)
Lemma encoder_failure_skips_the_api_witness :
  activity_log
    (trace_of
       (analyze_image_and_text (sample_env la_pixel (Returns apple_completion))
          "Bob" "Describe the image" la_pixel fresh_session))
  = ["User 'Bob' - Image analysis: failed"].
Proof.
  apply (encoder_failure_skips_the_api
           (sample_env la_pixel (Returns apple_completion))
           "Bob" "Describe the image" la_pixel fresh_session).
  intros uri. cbv. discriminate.
Defined.

(** C6: when encoding succeeds and every call made to the API fails, the
    analyzer returns the absent value and does exactly this, in order:
    hands the bitmap to the JPEG writer, logs a successful "API call",
    sends one request, logs a failed "Image analysis".  The activity log
    of the run is those two entries. *)
Theorem api_failure_is_logged_after_intent env u t image s uri :
  outcome_of (encode_image_to_base64 env image s) = Ok (Some uri) ->
  (forall req,
      In req (api_requests (trace_of (analyze_image_and_text env u t image s))) ->
      call_failed env req = true) ->
  exists req,
    analyze_image_and_text env u t image s
    = (Ok None, s,
       [ImageSave (serialized image);
        LogInfo (activity_line u "API call" true);
        ApiRequest req;
        LogInfo (activity_line u "Image analysis" false)]) /\
    activity_log (trace_of (analyze_image_and_text env u t image s))
    = [activity_line u "API call" true; activity_line u "Image analysis" false].
Proof.
  intros Henc Hfail.
  destruct (encode_some_inv env image s uri Henc) as (bytes & Hconv & Hsave & ->).
  exists (request_for t (data_uri bytes)).
  destruct (chat_completions_create env (request_for t (data_uri bytes)))
    as [[[ | c rest]] | msg] eqn:Hapi.
  - rewrite (analyze_no_choice _ _ _ _ _ _ Hconv Hsave Hapi). split; reflexivity.
  - exfalso.
    rewrite (analyze_first_choice _ _ _ _ _ _ _ _ Hconv Hsave Hapi) in Hfail.
    specialize (Hfail (request_for t (data_uri bytes)) (or_introl eq_refl)).
    unfold call_failed in Hfail. rewrite Hapi in Hfail. discriminate.
  - rewrite (analyze_api_raised _ _ _ _ _ _ _ Hconv Hsave Hapi). split; reflexivity.
Qed.

(** An API that raises a connection error. *)
Lemma api_failure_is_logged_after_intent_witness :
  activity_log
    (trace_of
       (analyze_image_and_text (sample_env rgb_pixel (Fails "Connection error."))
          "Bob" "Describe the image" rgb_pixel fresh_session))
  = ["User 'Bob' - API call: success"; "User 'Bob' - Image analysis: failed"].
Proof.
  destruct (api_failure_is_logged_after_intent
              (sample_env rgb_pixel (Fails "Connection error."))
              "Bob" "Describe the image" rgb_pixel fresh_session
              (data_uri (toy_jpeg rgb_pixel)))
    as (req & _ & Hlog).
  - reflexivity.
  - intros req _. reflexivity.
  - exact Hlog.
Defined.

(** C7: in a successful run (the conversion of an 'RGBA' bitmap does not
    raise, the JPEG writer returns bytes and the API answers the request
    with at least one choice) the analyzer sends
    exactly one request: one user message holding the prompt text and the
    encoded image as a data URI, temperature 1, at most 1024 output
    tokens, top-p 1, no streaming, no stop sequences, and the fixed model
    identifier.  It returns the content of the first choice and logs a
    successful "Image analysis" after the successful "API call". *)
Theorem successful_analysis env u t image s bytes req c rest :
  conversion_succeeds env image ->
  Image_save_JPEG env (serialized image) = Returns bytes ->
  req = {| model := "llama-3.2-11b-vision-preview";
           messages :=
             [ {| role := "user";
                  msg_content :=
                    [ TextPart t;
                      ImageUrlPart ("data:image/jpeg;base64," +++ b64encode bytes) ] |} ];
           temperature := 1;
           max_tokens := 1024;
           top_p := 1;
           stream := false;
           stop := None |} ->
  chat_completions_create env req = Returns {| choices := c :: rest |} ->
  analyze_image_and_text env u t image s
  = (Ok (content (message c)), s,
     [ImageSave (serialized image);
      LogInfo (activity_line u "API call" true);
      ApiRequest req;
      LogInfo (activity_line u "Image analysis" true)]).
Proof.
  intros Hconv Hsave -> Hapi.
  exact (analyze_first_choice env u t image s bytes c rest Hconv Hsave Hapi).
Qed.

(** An API that answers with the apple sentence. *)
Lemma successful_analysis_witness :
  outcome_of
    (analyze_image_and_text (sample_env rgb_pixel (Returns apple_completion))
       "Bob" "Describe the image" rgb_pixel fresh_session)
  = Ok (Some "A red apple on a table.").
Proof.
  rewrite (successful_analysis
             (sample_env rgb_pixel (Returns apple_completion))
             "Bob" "Describe the image" rgb_pixel fresh_session
             (toy_jpeg rgb_pixel) _ _ [] (fun _ => eq_refl) eq_refl eq_refl eq_refl).
  reflexivity.
Defined.

(** ** Encoder *)




(** ** Default prompt *)


(** ** End to end *)

(** C8, as stated, fails: the script logs a successful "Image upload" in
    every execution that has an uploaded file, so Bob's visit produces
    five activity entries, not three.  Even a visit reduced to the login
    and one execution with the file and the Analyze click produces
    four. *)
Lemma bob_visit_logs_the_uploads :
  activity_log
    (snd (run_session (bob_visit (sample_env rgb_pixel (Returns apple_completion)))
            fresh_session))
  = ["User 'Bob' - Login: success";
     "User 'Bob' - Image upload: success";
     "User 'Bob' - Image upload: success";
     "User 'Bob' - API call: success";
     "User 'Bob' - Image analysis: success"] /\
  activity_log
    (snd (run_session
            [ (sample_env rgb_pixel (Returns apple_completion),
               welcome_widgets "Bob" true);
              (sample_env rgb_pixel (Returns apple_completion),
               analyzer_widgets "" (Some apple_jpg) true) ]
            fresh_session))
  = ["User 'Bob' - Login: success";
     "User 'Bob' - Image upload: success";
     "User 'Bob' - API call: success";
     "User 'Bob' - Image analysis: success"].
Proof. split; vm_compute; reflexivity. Qed.

(** C8, amended: in Bob's visit, with an upload that opens (and converts,
    if it is 'RGBA'), a JPEG writer that returns bytes and an API that answers the request for the default
    prompt with the apple sentence, the page ends with the success notice
    and the text "A red apple on a table.", and the activity log is, in
    order: Login/success, Image upload/success (once for the execution
    caused by the upload and once for the one caused by the Analyze
    click), API call/success, Image analysis/success. *)
Theorem bob_visit_result env image bytes :
  Image_open env apple_jpg = Returns image ->
  conversion_succeeds env image ->
  Image_save_JPEG env (serialized image) = Returns bytes ->
  chat_completions_create env (request_for "Describe the image" (data_uri bytes))
  = Returns apple_completion ->
  activity_log (snd (run_session (bob_visit env) fresh_session))
  = [activity_line "Bob" "Login" true;
     activity_line "Bob" "Image upload" true;
     activity_line "Bob" "Image upload" true;
     activity_line "Bob" "API call" true;
     activity_line "Bob" "Image analysis" true] /\
  exists before,
    page (snd (run_session (bob_visit env) fresh_session))
    = before
        ++ [StSpinner "Analyzing the image...";
            StSuccess "Analysis complete!";
            StWrite "A red apple on a table.";
            StSidebarButton "Logout";
            StMarkdown footer].
Proof.
  intros Hopen Hconv Hsave Hapi.
  pose (bob := {| user_name := Some (Some "Bob") |}).
  assert (Hrun : analyze_image_and_text env "Bob"
                   (prompt_of (analyzer_widgets "" (Some apple_jpg) true)) image bob
                 = (Ok (Some "A red apple on a table."), bob,
                    [ImageSave (serialized image);
                     LogInfo (activity_line "Bob" "API call" true);
                     ApiRequest (request_for "Describe the image" (data_uri bytes));
                     LogInfo (activity_line "Bob" "Image analysis" true)])).
  { exact (analyze_first_choice env "Bob" "Describe the image" image bob bytes
             _ [] Hconv Hsave Hapi). }
  unfold bob_visit.
  rewrite run_session_cons.
  rewrite (main_gate_idle env (welcome_widgets "" false) fresh_session eq_refl eq_refl).
  cbn [session_of trace_of fst snd].
  rewrite run_session_cons.
  rewrite (main_gate_login env (welcome_widgets "Bob" true)
             {| user_name := Some None |} eq_refl eq_refl eq_refl).
  cbn [session_of trace_of fst snd welcome_widgets name_field].
  fold bob.
  rewrite run_session_cons.
  rewrite (main_view_session env (analyzer_widgets "" None false) bob "Bob" eq_refl).
  rewrite (main_view_no_file env (analyzer_widgets "" None false) bob "Bob"
             eq_refl eq_refl).
  cbn [analyzer_widgets logout_button].
  rewrite run_session_cons.
  rewrite (main_view_session env (analyzer_widgets "" (Some apple_jpg) false) bob
             "Bob" eq_refl).
  rewrite (main_view_uploaded env (analyzer_widgets "" (Some apple_jpg) false) bob
             "Bob" apple_jpg image eq_refl eq_refl Hopen eq_refl).
  cbn [analyzer_widgets logout_button].
  rewrite run_session_cons.
  rewrite (main_view_analysis env (analyzer_widgets "" (Some apple_jpg) true) bob
             "Bob" apple_jpg image _ _ eq_refl eq_refl Hopen eq_refl Hrun).
  cbn [run_session snd].
  split.
  - reflexivity.
  - rewrite !page_app, !page_map_Ui.
    do 4 apply suffix_app.
    exists (analyzer_head "Bob" ++ [StImage image "Uploaded Image"; StButton "Analyze"]).
    reflexivity.
Qed.

(** Bob's visit in the sample environment. *)
Lemma bob_visit_result_witness :
  exists before,
    page
      (snd (run_session (bob_visit (sample_env rgb_pixel (Returns apple_completion)))
              fresh_session))
    = before
        ++ [StSpinner "Analyzing the image...";
            StSuccess "Analysis complete!";
            StWrite "A red apple on a table.";
            StSidebarButton "Logout";
            StMarkdown footer].
Proof.
  apply (bob_visit_result (sample_env rgb_pixel (Returns apple_completion))
           rgb_pixel (toy_jpeg rgb_pixel) eq_refl (fun _ => eq_refl) eq_refl eq_refl).
Defined.

(** ** Session state machine *)

(** C9: in every reachable session state in which the user name is absent,
    an execution of the script renders the welcome screen (with the
    warning, if an empty name was submitted) and nothing else: no widget
    or message of the analyzer view, no bitmap handed to the JPEG writer,
    no request to the API.  So the analyzer events of an execution can
    only occur when the user name is present. *)
Theorem analyzer_needs_a_user s env w :
  reachable s ->
  current_user s = None ->
  (page (trace_of (main env w s)) = gate_page \/
   page (trace_of (main env w s))
   = gate_page ++ [StWarning "Please enter your name to continue."]) /\
  existsb analyzer_event (trace_of (main env w s)) = false /\
  saved_images (trace_of (main env w s)) = [] /\
  api_requests (trace_of (main env w s)) = [].
Proof.
  intros _ Hs.
  destruct (enter_button w) eqn:Hb.
  - destruct (truthy (name_field w)) eqn:Hn.
    + rewrite (main_gate_login env w s Hs Hb Hn). cbn. auto.
    + rewrite (main_gate_empty env w s Hs Hb Hn). cbn. auto.
  - rewrite (main_gate_idle env w s Hs Hb). cbn. auto.
Qed.

(** A fresh session, even with widget values that ask for an analysis. *)
Lemma analyzer_needs_a_user_witness :
  reachable fresh_session /\
  current_user fresh_session = None /\
  api_requests
    (trace_of
       (main (sample_env rgb_pixel (Returns apple_completion))
          (analyzer_widgets "" (Some apple_jpg) true) fresh_session))
  = [].
Proof.
  split; [exact reachable_fresh | ]. split; [reflexivity | ].
  apply (analyzer_needs_a_user fresh_session
           (sample_env rgb_pixel (Returns apple_completion))
           (analyzer_widgets "" (Some apple_jpg) true)
           reachable_fresh eq_refl).
Defined.

(** ** Empty answers *)

(** C10: when the bitmap is encoded, the API call succeeds and the content
    of the first choice is the empty string or absent, the analyzer returns that content and logs
    a successful "Image analysis"; the script, testing the truth value of
    what was returned, shows the generic error banner and no result.  The
    page is the same as when the API call raises, while the activity log
    records a success in one case and a failure in the other. *)
Theorem empty_answer_looks_like_failure env w s n f image bytes c rest msg :
  user_name s = Some (Some n) ->
  file_uploader w = Some f ->
  analyze_button w = true ->
  Image_open env f = Returns image ->
  conversion_succeeds env image ->
  Image_save_JPEG env (serialized image) = Returns bytes ->
  chat_completions_create env (request_for (prompt_of w) (data_uri bytes))
  = Returns {| choices := c :: rest |} ->
  content (message c) = Some "" \/ content (message c) = None ->
  outcome_of (analyze_image_and_text env n (prompt_of w) image s)
  = Ok (content (message c)) /\
  activity_log (trace_of (analyze_image_and_text env n (prompt_of w) image s))
  = [activity_line n "API call" true; activity_line n "Image analysis" true] /\
  page (trace_of (main env w s))
  = analyzer_head n
      ++ [StImage image "Uploaded Image"; StButton "Analyze";
          StSpinner "Analyzing the image..."; StError analysis_error_banner]
      ++ page (logout_tail n w) /\
  page (trace_of (main (with_failing_api env msg) w s))
  = page (trace_of (main env w s)) /\
  activity_log (trace_of (main env w s))
  = [activity_line n "Image upload" true;
     activity_line n "API call" true;
     activity_line n "Image analysis" true]
      ++ activity_log (logout_tail n w) /\
  activity_log (trace_of (main (with_failing_api env msg) w s))
  = [activity_line n "Image upload" true;
     activity_line n "API call" true;
     activity_line n "Image analysis" false]
      ++ activity_log (logout_tail n w).
Proof.
  intros Hs Hfile Hclick Hopen Hconv Hsave Hapi Hempty.
  pose proof (analyze_first_choice env n (prompt_of w) image s bytes c rest
                Hconv Hsave Hapi) as Hrun.
  pose proof (analyze_api_raised (with_failing_api env msg) n (prompt_of w)
                image s bytes msg Hconv Hsave eq_refl) as Hrun'.
  assert (Hshow : result_display (content (message c)) = [StError analysis_error_banner])
    by (destruct Hempty as [-> | ->]; reflexivity).
  rewrite (main_view_analysis env w s n f image _ _ Hs Hfile Hopen Hclick Hrun).
  rewrite (main_view_analysis (with_failing_api env msg) w s n f image _ _
             Hs Hfile Hopen Hclick Hrun').
  rewrite Hrun.
  rewrite !page_app, !activity_log_app, !page_map_Ui, !activity_log_map_Ui, Hshow.
  repeat split.
Qed.

(** An answer whose first choice has the empty string as content. *)
Lemma empty_answer_looks_like_failure_witness :
  page
    (trace_of
       (main (sample_env rgb_pixel
                (Returns {| choices := [ {| message := {| content := Some "" |} |} ] |}))
          (analyzer_widgets "" (Some apple_jpg) true)
          {| user_name := Some (Some "Bob") |}))
  = analyzer_head "Bob"
      ++ [StImage rgb_pixel "Uploaded Image"; StButton "Analyze";
          StSpinner "Analyzing the image..."; StError analysis_error_banner]
      ++ [StSidebarButton "Logout"; StMarkdown footer].
Proof.
  apply (empty_answer_looks_like_failure
           (sample_env rgb_pixel
              (Returns {| choices := [ {| message := {| content := Some "" |} |} ] |}))
           (analyzer_widgets "" (Some apple_jpg) true)
           {| user_name := Some (Some "Bob") |}
           "Bob" apple_jpg rgb_pixel (toy_jpeg rgb_pixel)
           {| message := {| content := Some "" |} |} [] "Connection error."
           eq_refl eq_refl eq_refl eq_refl (fun _ => eq_refl) eq_refl eq_refl
           (or_introl eq_refl)).
Defined.

(** ** Traces: projections and case analysis *)

Lemma api_requests_app t1 t2 :
  api_requests (t1 ++ t2) = api_requests t1 ++ api_requests t2.
Proof.
  induction t1 as [ | [msg | msg | img | req | e] t1 IH]; cbn; rewrite ?IH; reflexivity.
Qed.

Lemma saved_images_app t1 t2 :
  saved_images (t1 ++ t2) = saved_images t1 ++ saved_images t2.
Proof.
  induction t1 as [ | [msg | msg | img | req | e] t1 IH]; cbn; rewrite ?IH; reflexivity.
Qed.

Lemma api_requests_map_Ui l : api_requests (map Ui l) = [].
Proof. induction l as [ | e l IH]; cbn; auto. Qed.

Lemma saved_images_map_Ui l : saved_images (map Ui l) = [].
Proof. induction l as [ | e l IH]; cbn; auto. Qed.

Lemma api_requests_logout_tail n w : api_requests (logout_tail n w) = [].
Proof. unfold logout_tail. destruct (logout_button w); reflexivity. Qed.

Lemma saved_images_logout_tail n w : saved_images (logout_tail n w) = [].
Proof. unfold logout_tail. destruct (logout_button w); reflexivity. Qed.

Lemma analyze_runs env u t image s :
  exists r tr,
    analyze_image_and_text env u t image s = (Ok r, s, tr) /\
    analyze_run env u t image r tr.
Proof.
  destruct (conversion_cases env image) as [Hconv | (m & Hmode & Hload)].
  2: { rewrite (analyze_convert_failed _ _ _ _ _ _ Hmode Hload).
       eauto using run_convert_failed. }
  destruct (Image_save_JPEG env (serialized image)) as [bytes | msg] eqn:Hsave.
  - destruct (chat_completions_create env (request_for t (data_uri bytes)))
      as [[[ | c rest]] | msg] eqn:Hapi.
    + rewrite (analyze_no_choice _ _ _ _ _ _ Hconv Hsave Hapi).
      eauto using run_no_choice.
    + rewrite (analyze_first_choice _ _ _ _ _ _ _ _ Hconv Hsave Hapi).
      eauto using run_first_choice.
    + rewrite (analyze_api_raised _ _ _ _ _ _ _ Hconv Hsave Hapi).
      eauto using run_api_raised.
  - rewrite (analyze_encode_failed _ _ _ _ _ _ Hconv Hsave).
    eauto using run_encode_failed.
Qed.

Lemma main_view_trace env w s n :
  user_name s = Some (Some n) ->
  exists block,
    upload_block env w n block /\
    trace_of (main env w s)
    = map Ui (analyzer_head n) ++ block ++ logout_tail n w.
Proof.
  intros Hs.
  destruct (file_uploader w) as [f | ] eqn:Hfile.
  - destruct (Image_open env f) as [image | msg] eqn:Hopen.
    + destruct (analyze_button w) eqn:Hclick.
      * destruct (analyze_runs env n (prompt_of w) image s) as (r & tr & Hrun & Hcase).
        rewrite (main_view_analysis env w s n f image r tr Hs Hfile Hopen Hclick Hrun).
        eexists. split; [exact (block_analysis env w n f image r tr Hfile Hopen Hclick Hcase) | ].
        rewrite <- !app_assoc. reflexivity.
      * rewrite (main_view_uploaded env w s n f image Hs Hfile Hopen Hclick).
        eexists. split; [exact (block_uploaded env w n f image Hfile Hopen Hclick) | reflexivity].
    + rewrite (main_view_open_failed env w s n f msg Hs Hfile Hopen).
      eexists. split; [exact (block_open_failed env w n f msg Hfile Hopen) | reflexivity].
  - rewrite (main_view_no_file env w s n Hs Hfile).
    eexists. split; [exact (block_no_file env w n Hfile) | reflexivity].
Qed.

(** Where the requests of an execution come from. *)
Lemma main_requests_inv env w s :
  api_requests (trace_of (main env w s)) <> [] ->
  exists n f image uri,
    user_name s = Some (Some n) /\
    file_uploader w = Some f /\
    Image_open env f = Returns image /\
    analyze_button w = true /\
    api_requests (trace_of (main env w s)) = [request_for (prompt_of w) uri].
Proof.
  intros Hreq.
  destruct s as [[[n | ] | ]].
  - destruct (main_view_trace env w {| user_name := Some (Some n) |} n eq_refl)
      as (block & Hblock & Htrace).
    rewrite Htrace in Hreq |- *.
    destruct Hblock as [Hfile | f msg Hfile Hopen | f image Hfile Hopen Hclick
                        | f image r tr Hfile Hopen Hclick Hrun];
      repeat rewrite ?api_requests_app, ?api_requests_map_Ui,
        ?api_requests_logout_tail, ?app_nil_r in Hreq |- *;
      cbn [api_requests app] in Hreq |- *;
      try (exfalso; apply Hreq; reflexivity).
    exists n, f, image.
    destruct Hrun; cbn [api_requests app] in Hreq |- *;
      try (exfalso; apply Hreq; reflexivity);
      exists (data_uri bytes); auto.
  - exfalso. apply Hreq.
    destruct (main_gate_cases env w {| user_name := Some None |} eq_refl)
      as (extra & -> & [-> | [-> | ->]]);
      rewrite api_requests_app, api_requests_map_Ui; reflexivity.
  - exfalso. apply Hreq.
    destruct (main_gate_cases env w {| user_name := None |} eq_refl)
      as (extra & -> & [-> | [-> | ->]]);
      rewrite api_requests_app, api_requests_map_Ui; reflexivity.
Qed.

Lemma main_requests_le1 env w s :
  (length (api_requests (trace_of (main env w s))) <= 1)%nat.
Proof.
  destruct (api_requests (trace_of (main env w s))) as [ | req l] eqn:Hreq.
  - cbn. lia.
  - destruct (main_requests_inv env w s) as (n & f & image & uri & _ & _ & _ & _ & Heq).
    + rewrite Hreq. discriminate.
    + rewrite Hreq in Heq. injection Heq as _ ->. cbn. lia.
Qed.

(** ** Environments that differ in exception texts only *)

Lemma same_outcome_refl {A} (o : outcome A) : same_outcome o o.
Proof. destruct o; cbn; auto. Qed.

Lemma analyze_same_answers env1 env2 u t image s :
  same_answers env1 env2 ->
  exists r tr1 tr2,
    analyze_image_and_text env1 u t image s = (Ok r, s, tr1) /\
    analyze_image_and_text env2 u t image s = (Ok r, s, tr2) /\
    activity_log tr1 = activity_log tr2 /\
    api_requests tr1 = api_requests tr2 /\
    page tr1 = page tr2.
Proof.
  intros (_ & Hload & Hsave & Hapi).
  specialize (Hload image).
  specialize (Hsave (serialized image)).
  destruct (conversion_cases env1 image) as [Hc1 | (m1 & Hmode & Hl1)].
  2: { destruct (Image_load env2 image) as [[] | m2] eqn:Hl2;
         rewrite Hl1 in Hload; cbn in Hload; try contradiction.
       rewrite (analyze_convert_failed _ _ _ _ _ _ Hmode Hl1),
         (analyze_convert_failed _ _ _ _ _ _ Hmode Hl2).
       do 3 eexists. repeat split. }
  assert (Hc2 : conversion_succeeds env2 image).
  { intros Hmode. specialize (Hc1 Hmode). rewrite Hc1 in Hload.
    destruct (Image_load env2 image) as [[] | m2]; cbn in Hload;
      [reflexivity | contradiction]. }
  destruct (Image_save_JPEG env1 (serialized image)) as [bytes | msg1] eqn:Hs1;
    destruct (Image_save_JPEG env2 (serialized image)) as [bytes2 | msg2] eqn:Hs2;
    cbn in Hsave; try contradiction.
  - subst bytes2.
    specialize (Hapi (request_for t (data_uri bytes))).
    destruct (chat_completions_create env1 (request_for t (data_uri bytes)))
      as [[[ | c rest]] | m1] eqn:Ha1;
      destruct (chat_completions_create env2 (request_for t (data_uri bytes)))
        as [[[ | c2 rest2]] | m2] eqn:Ha2;
      cbn in Hapi; try contradiction; try discriminate.
    + rewrite (analyze_no_choice _ _ _ _ _ _ Hc1 Hs1 Ha1),
        (analyze_no_choice _ _ _ _ _ _ Hc2 Hs2 Ha2).
      do 3 eexists. repeat split.
    + injection Hapi as <- <-.
      rewrite (analyze_first_choice _ _ _ _ _ _ _ _ Hc1 Hs1 Ha1),
        (analyze_first_choice _ _ _ _ _ _ _ _ Hc2 Hs2 Ha2).
      do 3 eexists. repeat split.
    + rewrite (analyze_api_raised _ _ _ _ _ _ _ Hc1 Hs1 Ha1),
        (analyze_api_raised _ _ _ _ _ _ _ Hc2 Hs2 Ha2).
      do 3 eexists. repeat split.
  - rewrite (analyze_encode_failed _ _ _ _ _ _ Hc1 Hs1),
      (analyze_encode_failed _ _ _ _ _ _ Hc2 Hs2).
    do 3 eexists. repeat split.
Qed.

Lemma main_gate_env_independent env1 env2 w s :
  current_user s = None -> main env1 w s = main env2 w s.
Proof.
  intros Hs.
  destruct (enter_button w) eqn:Hb.
  - destruct (truthy (name_field w)) eqn:Hn.
    + rewrite (main_gate_login env1 w s Hs Hb Hn), (main_gate_login env2 w s Hs Hb Hn).
      reflexivity.
    + rewrite (main_gate_empty env1 w s Hs Hb Hn), (main_gate_empty env2 w s Hs Hb Hn).
      reflexivity.
  - rewrite (main_gate_idle env1 w s Hs Hb), (main_gate_idle env2 w s Hs Hb).
    reflexivity.
Qed.

Lemma main_same_answers env1 env2 w s :
  same_answers env1 env2 ->
  outcome_of (main env1 w s) = outcome_of (main env2 w s) /\
  session_of (main env1 w s) = session_of (main env2 w s) /\
  page (trace_of (main env1 w s)) = page (trace_of (main env2 w s)) /\
  activity_log (trace_of (main env1 w s)) = activity_log (trace_of (main env2 w s)) /\
  api_requests (trace_of (main env1 w s)) = api_requests (trace_of (main env2 w s)).
Proof.
  intros Hsame.
  destruct (current_user s) as [n | ] eqn:Hcur.
  2: { rewrite (main_gate_env_independent env1 env2 w s Hcur). repeat split. }
  assert (Hs : user_name s = Some (Some n)).
  { destruct s as [[[m | ] | ]]; cbn in Hcur; try discriminate.
    injection Hcur as ->. reflexivity. }
  destruct (main_view_end env1 w s n Hs) as [tr1 Hend1].
  destruct (main_view_end env2 w s n Hs) as [tr2 Hend2].
  split; [rewrite Hend1, Hend2; reflexivity | ].
  split; [rewrite Hend1, Hend2; reflexivity | ].
  clear tr1 tr2 Hend1 Hend2.
  destruct (file_uploader w) as [f | ] eqn:Hfile.
  - pose proof (proj1 Hsame f) as Hopen.
    destruct (Image_open env1 f) as [image | m1] eqn:Ho1;
      destruct (Image_open env2 f) as [image2 | m2] eqn:Ho2;
      cbn in Hopen; try contradiction.
    + subst image2.
      destruct (analyze_button w) eqn:Hclick.
      * destruct (analyze_same_answers env1 env2 n (prompt_of w) image s Hsame)
          as (r & tr1 & tr2 & Hr1 & Hr2 & Hlog & Hreq & Hpage).
        rewrite (main_view_analysis env1 w s n f image r tr1 Hs Hfile Ho1 Hclick Hr1).
        rewrite (main_view_analysis env2 w s n f image r tr2 Hs Hfile Ho2 Hclick Hr2).
        rewrite !page_app, !activity_log_app, !api_requests_app.
        rewrite Hlog, Hreq, Hpage. repeat split.
      * rewrite (main_view_uploaded env1 w s n f image Hs Hfile Ho1 Hclick).
        rewrite (main_view_uploaded env2 w s n f image Hs Hfile Ho2 Hclick).
        repeat split.
    + rewrite (main_view_open_failed env1 w s n f m1 Hs Hfile Ho1).
      rewrite (main_view_open_failed env2 w s n f m2 Hs Hfile Ho2).
      repeat split.
  - rewrite (main_view_no_file env1 w s n Hs Hfile).
    rewrite (main_view_no_file env2 w s n Hs Hfile).
    repeat split.
Qed.

(** The script never gives the analyzer an empty prompt. *)
Lemma prompt_of_nonempty w : prompt_of w <> "".
Proof.
  unfold prompt_of, truthy.
  destruct (String.eqb_spec (text_field w) "") as [Hempty | Hfull]; cbn.
  - discriminate.
  - exact Hfull.
Qed.

(** * Further properties of the program *)

(** ** Session gate *)

Lemma truthy_nonempty name : name <> "" -> truthy name = true.
Proof.
  intros Hne. unfold truthy. destruct (String.eqb_spec name ""); [contradiction | reflexivity].
Qed.

Lemma truthy_true_nonempty name : truthy name = true -> name <> "".
Proof. intros Ht ->. discriminate. Qed.

(** X1: submitting any non-empty name at the welcome screen establishes the
    session for exactly that name, as typed, logs one successful "Login"
    for it, shows no warning, and ends the execution with a rerun
    request. *)
Theorem named_user_logs_in env w s :
  current_user s = None ->
  enter_button w = true ->
  name_field w <> "" ->
  outcome_of (main env w s) = Raise RerunException /\
  user_name (session_of (main env w s)) = Some (Some (name_field w)) /\
  activity_log (trace_of (main env w s))
  = [activity_line (name_field w) "Login" true] /\
  page (trace_of (main env w s)) = gate_page.
Proof.
  intros Hs Hclick Hname.
  rewrite (main_gate_login env w s Hs Hclick (truthy_nonempty _ Hname)).
  repeat split.
Qed.

(** Alice, in a fresh session. *)
Lemma named_user_logs_in_witness :
  user_name
    (session_of
       (main (sample_env rgb_pixel (Fails "offline"))
          (welcome_widgets "Alice" true) fresh_session))
  = Some (Some "Alice").
Proof.
  apply (named_user_logs_in (sample_env rgb_pixel (Fails "offline"))
           (welcome_widgets "Alice" true) fresh_session eq_refl eq_refl).
  discriminate.
Defined.

(** X2: pressing Logout in the main view logs a successful "Logout" for the
    user that was logged in as the last thing the execution does, clears
    the user name, and asks for a rerun; the next execution of the script
    shows the welcome screen again, whatever the widgets hold. *)
Theorem logout_returns_to_gate env env' w w' s n :
  user_name s = Some (Some n) ->
  logout_button w = true ->
  outcome_of (main env w s) = Raise RerunException /\
  session_of (main env w s) = {| user_name := Some None |} /\
  (exists before,
      trace_of (main env w s)
      = before ++ [Ui (StSidebarButton "Logout");
                   LogInfo (activity_line n "Logout" true)]) /\
  exists extra,
    trace_of (main env' w' (session_of (main env w s)))
    = map Ui gate_page ++ extra.
Proof.
  intros Hs Hout.
  destruct (logout_clears_session env w s n Hs Hout) as (Hend & _ & Htrace).
  pose proof (main_view_session env w s n Hs) as Hsession.
  rewrite Hout in Hsession.
  repeat split; auto.
  rewrite Hsession.
  destruct (main_gate_cases env' w' {| user_name := Some None |} eq_refl)
    as (extra & -> & _).
  eauto.
Qed.

(** Bob logs out. *)
Lemma logout_returns_to_gate_witness :
  session_of
    (main (sample_env rgb_pixel (Fails "offline"))
       {| name_field := ""; enter_button := false; text_field := "";
          file_uploader := None; analyze_button := false;
          logout_button := true |}
       {| user_name := Some (Some "Bob") |})
  = {| user_name := Some None |}.
Proof.
  apply (logout_returns_to_gate
           (sample_env rgb_pixel (Fails "offline"))
           (sample_env rgb_pixel (Fails "offline"))
           {| name_field := ""; enter_button := false; text_field := "";
              file_uploader := None; analyze_button := false;
              logout_button := true |}
           (welcome_widgets "" false)
           {| user_name := Some (Some "Bob") |} "Bob" eq_refl eq_refl).
Defined.

(** X3: in every session state that a sequence of script executions can
    lead to, a user name that is present is not the empty string: only the
    gate writes a name, and it refuses the empty one. *)
Theorem reachable_names_are_nonempty s n :
  reachable s ->
  current_user s = Some n ->
  n <> "".
Proof.
  intros Hreach Hs.
  pose proof (reachable_user_named s Hreach) as Hinv.
  destruct s as [[[m | ] | ]]; cbn in Hs; try discriminate.
  injection Hs as ->. cbn in Hinv. exact (truthy_true_nonempty n Hinv).
Qed.

(** The state reached by Alice's login. *)
Lemma reachable_names_are_nonempty_witness : "Alice" <> "".
Proof.
  apply (reachable_names_are_nonempty {| user_name := Some (Some "Alice") |} "Alice").
  - exact (logged_in_is_reachable "Alice" eq_refl).
  - reflexivity.
Defined.

(** X4: no exception of class [Exception] leaves the script: whatever the
    libraries raise, an execution of [main] ends normally or with the
    rerun request of a login or a logout. *)
Theorem main_never_crashes env w s :
  outcome_of (main env w s) = Ok tt \/
  outcome_of (main env w s) = Raise RerunException.
Proof.
  pose proof (main_no_crash env w s) as Hno.
  destruct (outcome_of (main env w s)) as [[] | [msg | ]]; auto.
  exfalso. exact (Hno msg eq_refl).
Qed.

(** ** Main interface *)

(** X5: when [Image.open] raises on the uploaded file, the script shows the
    "Error processing image" notice, logs one failed "Image processing"
    entry for the user (and no "Image upload" entry), renders neither the
    image nor the Analyze button, hands nothing to the JPEG writer and
    sends nothing to the API; the logout button is still rendered. *)
Theorem unreadable_upload_is_reported env w s n f msg :
  user_name s = Some (Some n) ->
  file_uploader w = Some f ->
  Image_open env f = Fails msg ->
  page (trace_of (main env w s))
  = analyzer_head n
      ++ [StError "Error processing image. Please try another image."]
      ++ page (logout_tail n w) /\
  activity_log (trace_of (main env w s))
  = activity_line n "Image processing" false :: activity_log (logout_tail n w) /\
  saved_images (trace_of (main env w s)) = [] /\
  api_requests (trace_of (main env w s)) = [].
Proof.
  intros Hs Hfile Hopen.
  rewrite (main_view_open_failed env w s n f msg Hs Hfile Hopen).
  rewrite !page_app, !activity_log_app, !saved_images_app, !api_requests_app.
  rewrite page_map_Ui, activity_log_map_Ui, saved_images_map_Ui, api_requests_map_Ui.
  rewrite saved_images_logout_tail, api_requests_logout_tail.
  repeat split.
Qed.

(** An environment in which no upload can be opened. *)
Lemma unreadable_upload_is_reported_witness :
  activity_log
    (trace_of
       (main {| Image_open := fun _ => Fails "cannot identify image file";
                Image_load := fun _ => Returns tt;
                Image_save_JPEG := pillow_save;
                chat_completions_create := fun _ => Returns apple_completion |}
          (analyzer_widgets "" (Some apple_jpg) true)
          {| user_name := Some (Some "Bob") |}))
  = ["User 'Bob' - Image processing: failed"].
Proof.
  apply (unreadable_upload_is_reported
           {| Image_open := fun _ => Fails "cannot identify image file";
              Image_load := fun _ => Returns tt;
              Image_save_JPEG := pillow_save;
              chat_completions_create := fun _ => Returns apple_completion |}
           (analyzer_widgets "" (Some apple_jpg) true)
           {| user_name := Some (Some "Bob") |}
           "Bob" apple_jpg "cannot identify image file" eq_refl eq_refl eq_refl).
Defined.

(** X6: an execution of the script sends a request to the API only if a
    user is logged in, a file is uploaded, the file opens, and Analyze was
    pressed; the request then carries the prompt the script chose. *)
Theorem requests_need_user_file_and_click env w s :
  api_requests (trace_of (main env w s)) <> [] ->
  exists n f image uri,
    user_name s = Some (Some n) /\
    file_uploader w = Some f /\
    Image_open env f = Returns image /\
    analyze_button w = true /\
    api_requests (trace_of (main env w s)) = [request_for (prompt_of w) uri].
Proof. exact (main_requests_inv env w s). Qed.

(** Bob's analysis in the sample environment. *)
Lemma requests_need_user_file_and_click_witness :
  exists n f image uri,
    user_name {| user_name := Some (Some "Bob") |} = Some (Some n) /\
    file_uploader (analyzer_widgets "" (Some apple_jpg) true) = Some f /\
    Image_open (sample_env rgb_pixel (Returns apple_completion)) f = Returns image /\
    analyze_button (analyzer_widgets "" (Some apple_jpg) true) = true /\
    api_requests
      (trace_of
         (main (sample_env rgb_pixel (Returns apple_completion))
            (analyzer_widgets "" (Some apple_jpg) true)
            {| user_name := Some (Some "Bob") |}))
    = [request_for (prompt_of (analyzer_widgets "" (Some apple_jpg) true)) uri].
Proof.
  apply (requests_need_user_file_and_click
           (sample_env rgb_pixel (Returns apple_completion))
           (analyzer_widgets "" (Some apple_jpg) true)
           {| user_name := Some (Some "Bob") |}).
  vm_compute. discriminate.
Defined.

(** X7: with a readable upload and Analyze not pressed, the script shows
    the image and the Analyze button and logs exactly one successful
    "Image upload" for the user, on every such execution; it hands nothing
    to the JPEG writer and sends nothing to the API. *)
Theorem upload_is_logged_on_every_execution env w s n f image :
  user_name s = Some (Some n) ->
  file_uploader w = Some f ->
  Image_open env f = Returns image ->
  analyze_button w = false ->
  page (trace_of (main env w s))
  = analyzer_head n
      ++ [StImage image "Uploaded Image"; StButton "Analyze"]
      ++ page (logout_tail n w) /\
  activity_log (trace_of (main env w s))
  = activity_line n "Image upload" true :: activity_log (logout_tail n w) /\
  saved_images (trace_of (main env w s)) = [] /\
  api_requests (trace_of (main env w s)) = [].
Proof.
  intros Hs Hfile Hopen Hclick.
  rewrite (main_view_uploaded env w s n f image Hs Hfile Hopen Hclick).
  rewrite !page_app, !activity_log_app, !saved_images_app, !api_requests_app.
  rewrite page_map_Ui, activity_log_map_Ui, saved_images_map_Ui, api_requests_map_Ui.
  rewrite saved_images_logout_tail, api_requests_logout_tail.
  repeat split.
Qed.

(** Bob has uploaded the file and not pressed Analyze yet. *)
Lemma upload_is_logged_on_every_execution_witness :
  activity_log
    (trace_of
       (main (sample_env rgb_pixel (Returns apple_completion))
          (analyzer_widgets "" (Some apple_jpg) false)
          {| user_name := Some (Some "Bob") |}))
  = ["User 'Bob' - Image upload: success"].
Proof.
  apply (upload_is_logged_on_every_execution
           (sample_env rgb_pixel (Returns apple_completion))
           (analyzer_widgets "" (Some apple_jpg) false)
           {| user_name := Some (Some "Bob") |}
           "Bob" apple_jpg rgb_pixel eq_refl eq_refl eq_refl eq_refl).
Defined.

(** X8: the script calls [client.chat.completions.create] at most once per
    execution, so a session of any number of executions makes at most that
    many calls: the program has no retry loop of its own around the call
    (what the client does beneath one call is the client's affair). *)
Theorem at_most_one_request_per_execution runs s :
  (length (api_requests (snd (run_session runs s))) <= length runs)%nat.
Proof.
  revert s. induction runs as [ | [env w] rest IH]; intros s.
  - cbn. lia.
  - rewrite run_session_cons. cbn [snd length].
    rewrite api_requests_app, length_app.
    pose proof (main_requests_le1 env w s).
    pose proof (IH (session_of (main env w s))).
    lia.
Qed.

(** X9: in the main view, when Logout is not pressed, the execution ends
    normally with the session state unchanged and the footer rendered last,
    whatever happened to the upload and the analysis: the user stays
    logged in and is back at the upload form. *)
Theorem analysis_returns_to_main_view env w s n :
  user_name s = Some (Some n) ->
  logout_button w = false ->
  outcome_of (main env w s) = Ok tt /\
  session_of (main env w s) = s /\
  exists before,
    trace_of (main env w s)
    = before ++ [Ui (StSidebarButton "Logout"); Ui (StMarkdown footer)].
Proof.
  intros Hs Hstay.
  destruct (main_view_end env w s n Hs) as [tr Hend].
  destruct (main_view_trace env w s n Hs) as (block & _ & Htrace).
  rewrite Hstay in Hend.
  split; [rewrite Hend; reflexivity | ].
  split; [rewrite Hend; reflexivity | ].
  rewrite Htrace. unfold logout_tail. rewrite Hstay.
  exists (map Ui (analyzer_head n) ++ block).
  rewrite <- app_assoc. reflexivity.
Qed.

(** An analysis that fails, for Bob. *)
Lemma analysis_returns_to_main_view_witness :
  session_of
    (main (sample_env rgb_pixel (Fails "Connection error."))
       (analyzer_widgets "" (Some apple_jpg) true)
       {| user_name := Some (Some "Bob") |})
  = {| user_name := Some (Some "Bob") |}.
Proof.
  apply (analysis_returns_to_main_view
           (sample_env rgb_pixel (Fails "Connection error."))
           (analyzer_widgets "" (Some apple_jpg) true)
           {| user_name := Some (Some "Bob") |} "Bob" eq_refl eq_refl).
Defined.

(** X10: when the bitmap is encoded and the analysis yields a non-empty
    text, the page shows the
    success notice followed by exactly that text and no error banner, and
    the activity log of the execution is Image upload, API call, Image
    analysis, all successful. *)
Theorem answer_is_displayed env w s n f image bytes c rest text :
  user_name s = Some (Some n) ->
  file_uploader w = Some f ->
  analyze_button w = true ->
  Image_open env f = Returns image ->
  conversion_succeeds env image ->
  Image_save_JPEG env (serialized image) = Returns bytes ->
  chat_completions_create env (request_for (prompt_of w) (data_uri bytes))
  = Returns {| choices := c :: rest |} ->
  content (message c) = Some text ->
  text <> "" ->
  page (trace_of (main env w s))
  = analyzer_head n
      ++ [StImage image "Uploaded Image"; StButton "Analyze";
          StSpinner "Analyzing the image...";
          StSuccess "Analysis complete!"; StWrite text]
      ++ page (logout_tail n w) /\
  activity_log (trace_of (main env w s))
  = [activity_line n "Image upload" true;
     activity_line n "API call" true;
     activity_line n "Image analysis" true]
      ++ activity_log (logout_tail n w).
Proof.
  intros Hs Hfile Hclick Hopen Hconv Hsave Hapi Hcontent Htext.
  pose proof (analyze_first_choice env n (prompt_of w) image s bytes c rest
                Hconv Hsave Hapi) as Hrun.
  rewrite Hcontent in Hrun.
  assert (Hshow : result_display (Some text)
                  = [StSuccess "Analysis complete!"; StWrite text]).
  { unfold result_display. cbn [truthy_opt]. rewrite (truthy_nonempty _ Htext).
    reflexivity. }
  rewrite (main_view_analysis env w s n f image _ _ Hs Hfile Hopen Hclick Hrun).
  rewrite !page_app, !activity_log_app, !page_map_Ui, !activity_log_map_Ui, Hshow.
  repeat split.
Qed.

(** The apple, for Bob. *)
Lemma answer_is_displayed_witness :
  activity_log
    (trace_of
       (main (sample_env rgb_pixel (Returns apple_completion))
          (analyzer_widgets "What fruit is this?" (Some apple_jpg) true)
          {| user_name := Some (Some "Bob") |}))
  = ["User 'Bob' - Image upload: success";
     "User 'Bob' - API call: success";
     "User 'Bob' - Image analysis: success"].
Proof.
  apply (answer_is_displayed
           (sample_env rgb_pixel (Returns apple_completion))
           (analyzer_widgets "What fruit is this?" (Some apple_jpg) true)
           {| user_name := Some (Some "Bob") |}
           "Bob" apple_jpg rgb_pixel (toy_jpeg rgb_pixel)
           {| message := {| content := Some "A red apple on a table." |} |} []
           "A red apple on a table."
           eq_refl eq_refl eq_refl eq_refl (fun _ => eq_refl) eq_refl eq_refl eq_refl).
  discriminate.
Defined.

(** X11: a non-empty prompt is sent to the API exactly as typed: when the
    analysis runs and the bitmap is encoded, the single request of the execution has the typed text
    as its text part and the data URI of the JPEG bytes as its image
    part. *)
Theorem typed_prompt_is_sent_unchanged env w s n f image bytes :
  user_name s = Some (Some n) ->
  file_uploader w = Some f ->
  analyze_button w = true ->
  Image_open env f = Returns image ->
  conversion_succeeds env image ->
  Image_save_JPEG env (serialized image) = Returns bytes ->
  text_field w <> "" ->
  api_requests (trace_of (main env w s))
  = [ {| model := "llama-3.2-11b-vision-preview";
         messages :=
           [ {| role := "user";
                msg_content :=
                  [ TextPart (text_field w);
                    ImageUrlPart ("data:image/jpeg;base64," +++ b64encode bytes) ] |} ];
         temperature := 1;
         max_tokens := 1024;
         top_p := 1;
         stream := false;
         stop := None |} ].
Proof.
  intros Hs Hfile Hclick Hopen Hconv Hsave Htext.
  assert (Hprompt : prompt_of w = text_field w)
    by (unfold prompt_of; rewrite (truthy_nonempty _ Htext); reflexivity).
  destruct (analyze_runs env n (prompt_of w) image s) as (r & tr & Hrun & Hcase).
  rewrite (main_view_analysis env w s n f image r tr Hs Hfile Hopen Hclick Hrun).
  repeat rewrite ?api_requests_app, ?api_requests_map_Ui, ?api_requests_logout_tail,
    ?app_nil_r.
  cbn [api_requests app].
  destruct Hcase as [msg Hmode Hload | msg _ Hfail | b msg _ Hb _ | b _ Hb _
                     | b c rest _ Hb _];
    try (rewrite (Hconv Hmode) in Hload; discriminate);
    try (rewrite Hsave in Hb; injection Hb as <-);
    try (rewrite Hsave in Hfail; discriminate);
    rewrite Hprompt; reflexivity.
Qed.

(** Bob asks a question of his own. *)
Lemma typed_prompt_is_sent_unchanged_witness :
  api_requests
    (trace_of
       (main (sample_env rgb_pixel (Returns apple_completion))
          (analyzer_widgets "What fruit is this?" (Some apple_jpg) true)
          {| user_name := Some (Some "Bob") |}))
  = [request_for "What fruit is this?" (data_uri (toy_jpeg rgb_pixel))].
Proof.
  apply (typed_prompt_is_sent_unchanged
           (sample_env rgb_pixel (Returns apple_completion))
           (analyzer_widgets "What fruit is this?" (Some apple_jpg) true)
           {| user_name := Some (Some "Bob") |}
           "Bob" apple_jpg rgb_pixel (toy_jpeg rgb_pixel)
           eq_refl eq_refl eq_refl eq_refl (fun _ => eq_refl) eq_refl).
  discriminate.
Defined.

(** ** Analyzer and encoder *)

(** X12: a text returned by the analyzer is always the content of the first
    choice of the answer the API gave to the one request of that call: if
    the analyzer returns a present value, the JPEG writer returned bytes,
    the API answered the request for those bytes with at least one choice,
    and the activity log of the call is API call/success, Image
    analysis/success. *)
Theorem returned_text_comes_from_the_api env u t image s text :
  outcome_of (analyze_image_and_text env u t image s) = Ok (Some text) ->
  exists bytes c rest,
    Image_save_JPEG env (serialized image) = Returns bytes /\
    chat_completions_create env (request_for t (data_uri bytes))
    = Returns {| choices := c :: rest |} /\
    content (message c) = Some text /\
    api_requests (trace_of (analyze_image_and_text env u t image s))
    = [request_for t (data_uri bytes)] /\
    activity_log (trace_of (analyze_image_and_text env u t image s))
    = [activity_line u "API call" true; activity_line u "Image analysis" true].
Proof.
  intros Hout.
  destruct (analyze_runs env u t image s) as (r & tr & Hrun & Hcase).
  rewrite Hrun in Hout |- *. cbn in Hout. injection Hout as ->.
  inversion Hcase as [ | | | | bytes c rest Hconv Hsave Hapi Hr Htr]; subst.
  exists bytes, c, rest. repeat split; auto.
Qed.

(** The apple sentence. *)
Lemma returned_text_comes_from_the_api_witness :
  exists bytes c rest,
    Image_save_JPEG (sample_env rgb_pixel (Returns apple_completion))
      (serialized rgb_pixel) = Returns bytes /\
    chat_completions_create (sample_env rgb_pixel (Returns apple_completion))
      (request_for "Describe the image" (data_uri bytes))
    = Returns {| choices := c :: rest |} /\
    content (message c) = Some "A red apple on a table." /\
    api_requests
      (trace_of
         (analyze_image_and_text (sample_env rgb_pixel (Returns apple_completion))
            "Bob" "Describe the image" rgb_pixel fresh_session))
    = [request_for "Describe the image" (data_uri bytes)] /\
    activity_log
      (trace_of
         (analyze_image_and_text (sample_env rgb_pixel (Returns apple_completion))
            "Bob" "Describe the image" rgb_pixel fresh_session))
    = [activity_line "Bob" "API call" true;
       activity_line "Bob" "Image analysis" true].
Proof.
  apply (returned_text_comes_from_the_api
           (sample_env rgb_pixel (Returns apple_completion))
           "Bob" "Describe the image" rgb_pixel fresh_session
           "A red apple on a table.").
  reflexivity.
Defined.

(** X13: the actor's name is used for the log lines only: the value the
    analyzer returns, the bitmap it hands to the JPEG writer and the
    request it sends to the API are the same for any two actors and any two
    session states. *)
Theorem actor_is_only_logged env u1 u2 t image s1 s2 :
  outcome_of (analyze_image_and_text env u1 t image s1)
  = outcome_of (analyze_image_and_text env u2 t image s2) /\
  saved_images (trace_of (analyze_image_and_text env u1 t image s1))
  = saved_images (trace_of (analyze_image_and_text env u2 t image s2)) /\
  api_requests (trace_of (analyze_image_and_text env u1 t image s1))
  = api_requests (trace_of (analyze_image_and_text env u2 t image s2)).
Proof.
  destruct (conversion_cases env image) as [Hconv | (m & Hmode & Hload)].
  2: { rewrite !(analyze_convert_failed _ _ _ _ _ _ Hmode Hload). repeat split. }
  destruct (Image_save_JPEG env (serialized image)) as [bytes | msg] eqn:Hsave.
  - destruct (chat_completions_create env (request_for t (data_uri bytes)))
      as [[[ | c rest]] | msg] eqn:Hapi.
    + rewrite !(analyze_no_choice _ _ _ _ _ _ Hconv Hsave Hapi). repeat split.
    + rewrite !(analyze_first_choice _ _ _ _ _ _ _ _ Hconv Hsave Hapi). repeat split.
    + rewrite !(analyze_api_raised _ _ _ _ _ _ _ Hconv Hsave Hapi). repeat split.
  - rewrite !(analyze_encode_failed _ _ _ _ _ _ Hconv Hsave). repeat split.
Qed.

(** X14: the encoder raises only when the bitmap is 'RGBA' and converting
    it raises: the conversion stands before the [try], so that exception
    leaves the encoder, with no attempt to write the JPEG and nothing
    logged.  In every other case the encoder returns, after exactly one
    attempt to write the JPEG and without writing an activity entry: the
    data URI of the bytes when the writer returned them (nothing is
    logged), the absent value when the writer raised (one error line that
    ends with the text of the exception).  The session is never touched. *)
Theorem encoder_returns_uri_or_logs_error env image s :
  (exists msg,
      mode image = "RGBA" /\
      Image_load env image = Fails msg /\
      encode_image_to_base64 env image s = (Raise (Exception msg), s, [])) \/
  (conversion_succeeds env image /\
   exists r tr,
     encode_image_to_base64 env image s
     = (Ok r, s, ImageSave (serialized image) :: tr) /\
     activity_log tr = [] /\
     match Image_save_JPEG env (serialized image) with
     | Returns bytes =>
         r = Some ("data:image/jpeg;base64," +++ b64encode bytes) /\ tr = []
     | Fails msg =>
         r = None /\ tr = [LogError ("Error encoding image for user: " +++ msg)]
     end).
Proof.
  destruct (conversion_cases env image) as [Hconv | (m & Hmode & Hload)].
  - right. split; [exact Hconv | ].
    destruct (Image_save_JPEG env (serialized image)) as [bytes | msg] eqn:Hsave.
    + rewrite (encode_writer_returns env image s bytes Hconv Hsave).
      exists (Some (data_uri bytes)), []. repeat split.
    + rewrite (encode_writer_fails env image s msg Hconv Hsave).
      exists None, [LogError ("Error encoding image for user: " +++ msg)].
      repeat split.
  - left. exists m.
    split; [exact Hmode | ]. split; [exact Hload | ].
    exact (encode_convert_raises env image s m Hmode Hload).
Qed.

(** X15: a bitmap whose mode is not 'RGBA' is handed to the JPEG writer
    exactly as it is, pixel data and mode included; whether encoding
    succeeds is then decided by the writer alone. *)
Theorem other_modes_are_saved_unchanged env image s :
  mode image <> "RGBA" ->
  saved_images (trace_of (encode_image_to_base64 env image s)) = [image] /\
  (forall bytes,
      Image_save_JPEG env image = Returns bytes ->
      outcome_of (encode_image_to_base64 env image s)
      = Ok (Some ("data:image/jpeg;base64," +++ b64encode bytes))) /\
  (forall msg,
      Image_save_JPEG env image = Fails msg ->
      outcome_of (encode_image_to_base64 env image s) = Ok None).
Proof.
  intros Hmode.
  assert (Hser : serialized image = image).
  { unfold serialized. destruct (String.eqb_spec (mode image) "RGBA");
      [contradiction | reflexivity]. }
  assert (Hconv : conversion_succeeds env image)
    by (intros Hrgba; contradiction).
  split; [ | split].
  - destruct (Image_save_JPEG env (serialized image)) as [bytes | msg] eqn:Hsave.
    + rewrite (encode_writer_returns env image s bytes Hconv Hsave), Hser. reflexivity.
    + rewrite (encode_writer_fails env image s msg Hconv Hsave), Hser. reflexivity.
  - intros bytes Hsave. rewrite <- Hser in Hsave.
    rewrite (encode_writer_returns env image s bytes Hconv Hsave). reflexivity.
  - intros msg Hsave. rewrite <- Hser in Hsave.
    rewrite (encode_writer_fails env image s msg Hconv Hsave). reflexivity.
Qed.

(** An opaque pixel. *)
Lemma other_modes_are_saved_unchanged_witness :
  saved_images
    (trace_of
       (encode_image_to_base64 (sample_env rgb_pixel (Fails "offline"))
          rgb_pixel fresh_session))
  = [rgb_pixel].
Proof.
  apply (other_modes_are_saved_unchanged
           (sample_env rgb_pixel (Fails "offline")) rgb_pixel fresh_session).
  discriminate.
Defined.

(** ** Error texts *)

(** X16: the text of an exception raised by Pillow or by the API client
    never reaches the page or the activity log: two environments that
    differ only in those texts give executions with the same outcome, the
    same session, the same page, the same activity log and the same
    requests, and so do whole sessions.  (Only the error line of the
    encoder carries such a text.) *)
Theorem exception_texts_do_not_leak runs1 runs2 s :
  Forall2 (fun r1 r2 => same_answers (fst r1) (fst r2) /\ snd r1 = snd r2) runs1 runs2 ->
  fst (run_session runs1 s) = fst (run_session runs2 s) /\
  page (snd (run_session runs1 s)) = page (snd (run_session runs2 s)) /\
  activity_log (snd (run_session runs1 s)) = activity_log (snd (run_session runs2 s)) /\
  api_requests (snd (run_session runs1 s)) = api_requests (snd (run_session runs2 s)).
Proof.
  intros Hruns. revert s.
  induction Hruns as [ | [env1 w1] [env2 w2] rest1 rest2 [Hsame Hw] _ IH]; intros s.
  - repeat split.
  - cbn [fst snd] in Hsame, Hw. subst w2.
    rewrite !run_session_cons. cbn [fst snd].
    destruct (main_same_answers env1 env2 w1 s Hsame)
      as (_ & Hsession & Hpage & Hlog & Hreq).
    rewrite !page_app, !activity_log_app, !api_requests_app.
    rewrite Hpage, Hlog, Hreq, Hsession.
    destruct (IH (session_of (main env2 w1 s))) as (-> & -> & -> & ->).
    repeat split.
Qed.

(** Bob's visit with two different reasons for the API to fail. *)
Lemma exception_texts_do_not_leak_witness :
  page (snd (run_session (bob_visit (sample_env rgb_pixel (Fails "401 Unauthorized")))
               fresh_session))
  = page (snd (run_session (bob_visit (sample_env rgb_pixel (Fails "Connection error.")))
                 fresh_session)).
Proof.
  apply (exception_texts_do_not_leak
           (bob_visit (sample_env rgb_pixel (Fails "401 Unauthorized")))
           (bob_visit (sample_env rgb_pixel (Fails "Connection error.")))
           fresh_session).
  assert (Hsame : same_answers (sample_env rgb_pixel (Fails "401 Unauthorized"))
                    (sample_env rgb_pixel (Fails "Connection error."))).
  { split; [ | split; [ | split]]; intros x; cbn.
    - reflexivity.
    - reflexivity.
    - apply same_outcome_refl.
    - exact I. }
  unfold bob_visit.
  repeat (constructor; [split; [exact Hsame | reflexivity] | ]).
  constructor.
Defined.

(** ** The data URI *)

(** X17: when the encoder returns a value, it is the text
    "data:image/jpeg;base64," followed by a Base64 payload of four
    characters per started group of three bytes, and decoding that payload
    gives back exactly the bytes the JPEG writer produced for the bitmap:
    nothing is lost or altered between the writer and the request. *)
Theorem data_uri_carries_the_jpeg_bytes env image s uri :
  outcome_of (encode_image_to_base64 env image s) = Ok (Some uri) ->
  exists bytes payload,
    Image_save_JPEG env (serialized image) = Returns bytes /\
    uri = "data:image/jpeg;base64," +++ payload /\
    b64decode payload = Some bytes /\
    String.length payload = (4 * ((length bytes + 2) / 3))%nat.
Proof.
  intros Hout.
  destruct (encode_some_inv env image s uri Hout) as (bytes & _ & Hsave & ->).
  exists bytes, (b64encode bytes).
  split; [exact Hsave | ]. split; [reflexivity | ].
  split; [apply b64decode_encode | apply b64encode_length].
Qed.

(** One opaque pixel. *)
Lemma data_uri_carries_the_jpeg_bytes_witness :
  exists bytes payload,
    Image_save_JPEG (sample_env rgb_pixel (Fails "offline")) (serialized rgb_pixel)
    = Returns bytes /\
    data_uri (toy_jpeg rgb_pixel) = "data:image/jpeg;base64," +++ payload /\
    b64decode payload = Some bytes /\
    String.length payload = (4 * ((length bytes + 2) / 3))%nat.
Proof.
  apply (data_uri_carries_the_jpeg_bytes
           (sample_env rgb_pixel (Fails "offline")) rgb_pixel fresh_session
           (data_uri (toy_jpeg rgb_pixel))).
  reflexivity.
Defined.

(** ** Log lines *)

Lemma append_cancel_l p x y : p +++ x = p +++ y -> x = y.
Proof.
  induction p as [ | c p IH]; cbn [String.append]; intros H.
  - exact H.
  - injection H as H. exact (IH H).
Qed.

(** X18: the line [log_activity] writes tells the outcome: for the same
    user and activity, a success and a failure are never written as the
    same line. *)
Theorem log_line_tells_the_outcome user activity b1 b2 :
  activity_line user activity b1 = activity_line user activity b2 -> b1 = b2.
Proof.
  unfold activity_line. intros H.
  do 5 apply append_cancel_l in H.
  destruct b1, b2; try reflexivity; discriminate.
Qed.

(** Two lines for Bob. *)
Lemma log_line_tells_the_outcome_witness : true = true.
Proof.
  apply (log_line_tells_the_outcome "Bob" "Login" true true). reflexivity.
Defined.
